(** * django_database_translation: the relational schema, the lookup mixin
      and the helper functions, embedded in Rocq.

    Sources embedded here:
    - [django_database_translation/models.py]: the four models [Field],
      [Item], [Language], [Translation], their [Meta] constraints, the
      [TranslatedModel] mixin and the [count_*] methods;
    - [django_database_translation/utils.py]: [get_language_from_session],
      [instance_as_translated_dict], [all_instances_as_translated_dict],
      [update_user_language].

    A table is the list of its rows, a queryset is a list of rows, and the
    manager calls [objects.filter] / [objects.get] / [count] are list
    functions.  Code that can raise returns a [result]. *)

From Stdlib Require Import ZArith String Ascii List Bool Lia.
From stdpp Require Import base option list gmap strings.
Import ListNotations.
Open Scope string_scope.
Open Scope list_scope.
Open Scope Z_scope.

(** ** Exceptions and the error monad *)

Inductive model_name : Type :=
  | MContentType | MField | MItem | MLanguage | MTranslation.

Inductive exn : Type :=
  | TypeError (msg : string)
  | AttributeError
  | AssertionError
  | DoesNotExist (m : model_name)
  | MultipleObjectsReturned (m : model_name)
  | IntegrityError (m : model_name).

Inductive result (A : Type) : Type :=
  | Ok (a : A)
  | Raise (e : exn).
Arguments Ok {A} a.
Arguments Raise {A} e.

#[global] Instance result_ret : MRet result := λ A a, Ok a.
#[global] Instance result_bind : MBind result :=
  λ A B f m, match m with Ok a => f a | Raise e => Raise e end.

Definition is_Ok {A} (r : result A) : Prop :=
  match r with Ok _ => True | Raise _ => False end.

(** ** Python strings: [str.upper], [str.lower], truthiness

    Strings are ASCII strings; [upper] and [lower] act on the letters
    a-z / A-Z and leave every other character alone. *)

Definition ascii_upper (c : ascii) : ascii :=
  let n := N_of_ascii c in
  if ((97 <=? n) && (n <=? 122))%N then ascii_of_N (n - 32) else c.

Definition ascii_lower (c : ascii) : ascii :=
  let n := N_of_ascii c in
  if ((65 <=? n) && (n <=? 90))%N then ascii_of_N (n + 32) else c.

Fixpoint upper (s : string) : string :=
  match s with
  | EmptyString => EmptyString
  | String c rest => String (ascii_upper c) (upper rest)
  end.

Fixpoint lower (s : string) : string :=
  match s with
  | EmptyString => EmptyString
  | String c rest => String (ascii_lower c) (lower rest)
  end.

(** [bool(s)] for a Python str. *)
Definition str_truthy (s : string) : bool :=
  match s with EmptyString => false | String _ _ => true end.

(** ** Rows of the five tables

    A record is a model instance; [None] as primary key is an instance that
    was never saved.  Foreign keys hold the primary key of the row they
    point to.

    models.py imports [ForeignKeyCascade], [NotEmptyCharField] and
    [NoBulkCreateManager] from a module that is not among the sources.  A
    [NotEmptyCharField] column is a string column here and can hold any
    string, the empty one included: no [save] of models.py tests a column
    for emptiness.  [ForeignKeyCascade] is treated with the deletes;
    [NoBulkCreateManager] only takes [bulk_create] away, which no function
    embedded here calls. *)

Record ContentType := {
  ct_id : option Z;
  app_label : string;
  model : string }.

Record Field := {
  field_id : option Z;
  field_content_type : Z;
  field_name : string }.

Record Item := {
  item_id : option Z;
  item_field : Z;
  item_object_id : Z;
  item_content_type : Z }.

Record Language := {
  language_id : option Z;
  language_name : string;
  iso2 : string;
  iso3 : string;
  django_language_name : string }.

Record Translation := {
  translation_id : option Z;
  translation_language : Z;
  translation_item : Z;
  translation_text : string }.

#[global] Instance ContentType_eq_dec : EqDecision ContentType.
Proof. solve_decision. Defined.
#[global] Instance Field_eq_dec : EqDecision Field.
Proof. solve_decision. Defined.
#[global] Instance Item_eq_dec : EqDecision Item.
Proof. solve_decision. Defined.
#[global] Instance Language_eq_dec : EqDecision Language.
Proof. solve_decision. Defined.
#[global] Instance Translation_eq_dec : EqDecision Translation.
Proof. solve_decision. Defined.

(** The database: one list of rows per table, named after [Meta.db_table]. *)
Record DB := {
  django_content_type : list ContentType;
  ddt_fields : list Field;
  ddt_items : list Item;
  ddt_languages : list Language;
  ddt_translations : list Translation }.

Definition empty_db : DB :=
  {| django_content_type := []; ddt_fields := []; ddt_items := [];
     ddt_languages := []; ddt_translations := [] |}.

Definition set_content_types (rows : list ContentType) (db : DB) : DB :=
  {| django_content_type := rows; ddt_fields := ddt_fields db;
     ddt_items := ddt_items db; ddt_languages := ddt_languages db;
     ddt_translations := ddt_translations db |}.
Definition set_fields (rows : list Field) (db : DB) : DB :=
  {| django_content_type := django_content_type db; ddt_fields := rows;
     ddt_items := ddt_items db; ddt_languages := ddt_languages db;
     ddt_translations := ddt_translations db |}.
Definition set_items (rows : list Item) (db : DB) : DB :=
  {| django_content_type := django_content_type db;
     ddt_fields := ddt_fields db; ddt_items := rows;
     ddt_languages := ddt_languages db;
     ddt_translations := ddt_translations db |}.
Definition set_languages (rows : list Language) (db : DB) : DB :=
  {| django_content_type := django_content_type db;
     ddt_fields := ddt_fields db; ddt_items := ddt_items db;
     ddt_languages := rows; ddt_translations := ddt_translations db |}.
Definition set_translations (rows : list Translation) (db : DB) : DB :=
  {| django_content_type := django_content_type db;
     ddt_fields := ddt_fields db; ddt_items := ddt_items db;
     ddt_languages := ddt_languages db; ddt_translations := rows |}.

(** ** Managers and querysets *)

(** [Model.objects.get(...)]: the single row of the filtered queryset. *)
Definition objects_get {A} (m : model_name) (qs : list A) : result A :=
  match qs with
  | [] => Raise (DoesNotExist m)
  | [row] => Ok row
  | _ :: _ :: _ => Raise (MultipleObjectsReturned m)
  end.

(** Lookup [column=value] where the value is a Python object that may be
    [None]: a [None] value selects no row of a non-null column. *)
Definition column_is (column : Z) (value : option Z) : Prop :=
  value = Some column.
#[global] Instance column_is_dec c v : Decision (column_is c v).
Proof. unfold column_is. apply _. Defined.

(** Lookup [pk=value]. *)
Definition pk_is (pk value : option Z) : Prop :=
  is_Some value ∧ pk = value.
#[global] Instance pk_is_dec pk v : Decision (pk_is pk v).
Proof. unfold pk_is. apply _. Defined.

(** ** [Model.save]: insert or update under the table's constraints

    [super().save()] writes one row.  An instance without primary key is
    inserted under the next key of the sequence; an instance with a primary
    key updates the row that has it, or is inserted when there is none.  The
    database refuses (IntegrityError) a write after which two rows would agree
    on the columns of a unique constraint. *)

Section Table.
Context {A : Type}.
Variable m : model_name.
Variable pk : A → option Z.
Variable with_pk : Z → A → A.
(** [collides r r']: the two rows agree on the columns of one of the
    unique constraints declared for the model. *)
Variable collides : A → A → Prop.
Context `{!RelDecision collides}.

Definition max_pk (rows : list A) : Z :=
  foldr (λ r acc, match pk r with Some k => Z.max k acc | None => acc end)
        0 rows.

(** UPDATE ... WHERE id = k: the rows with primary key [k] take the
    columns of [self]. *)
Definition replace_pk (k : Z) (self : A) (rows : list A) : list A :=
  (λ r, if decide (pk r = Some k) then self else r) <$> rows.

Definition Model_save (self : A) (rows : list A) : result (A * list A) :=
  match pk self with
  | Some k =>
      if decide (Exists (λ r, pk r ≠ Some k ∧ collides self r) rows)
      then Raise (IntegrityError m)
      else if decide (Exists (λ r, pk r = Some k) rows)
      then Ok (self, replace_pk k self rows)
      else Ok (self, rows ++ [self])
  | None =>
      let self' := with_pk (1 + max_pk rows) self in
      if decide (Exists (λ r, collides self' r) rows)
      then Raise (IntegrityError m)
      else Ok (self', rows ++ [self'])
  end.

(** The table-level constraints: primary keys are pairwise distinct and no
    two rows collide. *)
Definition table_ok (rows : list A) : Prop :=
  NoDup (pk <$> rows) ∧
  ∀ r r', r ∈ rows → r' ∈ rows → collides r r' → pk r = pk r'.
End Table.

(** *** The constraints declared in the models' [Meta] and field options *)

(** [ContentType]: unique_together (app_label, model), from the framework. *)
Definition ContentType_unique (c c' : ContentType) : Prop :=
  app_label c = app_label c' ∧ model c = model c'.

(** [Field.Meta.unique_together = [['content_type', 'name']]] *)
Definition Field_unique_together (f f' : Field) : Prop :=
  field_content_type f = field_content_type f' ∧ field_name f = field_name f'.

(** [Item.Meta.unique_together = [['field', 'object_id']]] *)
Definition Item_unique_together (i i' : Item) : Prop :=
  item_field i = item_field i' ∧ item_object_id i = item_object_id i'.

(** [Language]: [unique=True] on name, iso2, iso3, django_language_name. *)
Definition Language_unique (l l' : Language) : Prop :=
  language_name l = language_name l' ∨ iso2 l = iso2 l' ∨
  iso3 l = iso3 l' ∨ django_language_name l = django_language_name l'.

(** [Translation.Meta.unique_together = [["language", "item"]]] *)
Definition Translation_unique_together (t t' : Translation) : Prop :=
  translation_language t = translation_language t' ∧
  translation_item t = translation_item t'.

#[global] Instance ContentType_unique_dec : RelDecision ContentType_unique.
Proof. intros c c'. unfold ContentType_unique. apply _. Defined.
#[global] Instance Field_unique_together_dec : RelDecision Field_unique_together.
Proof. intros f f'. unfold Field_unique_together. apply _. Defined.
#[global] Instance Item_unique_together_dec : RelDecision Item_unique_together.
Proof. intros i i'. unfold Item_unique_together. apply _. Defined.
#[global] Instance Language_unique_dec : RelDecision Language_unique.
Proof. intros l l'. unfold Language_unique. apply _. Defined.
#[global] Instance Translation_unique_together_dec :
  RelDecision Translation_unique_together.
Proof. intros t t'. unfold Translation_unique_together. apply _. Defined.

Definition ContentType_with_pk (k : Z) (c : ContentType) : ContentType :=
  {| ct_id := Some k; app_label := app_label c; model := model c |}.
Definition Field_with_pk (k : Z) (f : Field) : Field :=
  {| field_id := Some k; field_content_type := field_content_type f;
     field_name := field_name f |}.
Definition Item_with_pk (k : Z) (i : Item) : Item :=
  {| item_id := Some k; item_field := item_field i;
     item_object_id := item_object_id i;
     item_content_type := item_content_type i |}.
Definition Language_with_pk (k : Z) (l : Language) : Language :=
  {| language_id := Some k; language_name := language_name l;
     iso2 := iso2 l; iso3 := iso3 l;
     django_language_name := django_language_name l |}.
Definition Translation_with_pk (k : Z) (t : Translation) : Translation :=
  {| translation_id := Some k; translation_language := translation_language t;
     translation_item := translation_item t;
     translation_text := translation_text t |}.

Definition ContentType_save (self : ContentType) (db : DB)
  : result (ContentType * DB) :=
  '(self', rows) ← Model_save MContentType ct_id ContentType_with_pk
                     ContentType_unique self (django_content_type db);
  Ok (self', set_content_types rows db).

Definition Field_save (self : Field) (db : DB) : result (Field * DB) :=
  '(self', rows) ← Model_save MField field_id Field_with_pk
                     Field_unique_together self (ddt_fields db);
  Ok (self', set_fields rows db).

Definition Item_save (self : Item) (db : DB) : result (Item * DB) :=
  '(self', rows) ← Model_save MItem item_id Item_with_pk
                     Item_unique_together self (ddt_items db);
  Ok (self', set_items rows db).

Definition Translation_save (self : Translation) (db : DB)
  : result (Translation * DB) :=
  '(self', rows) ← Model_save MTranslation translation_id Translation_with_pk
                     Translation_unique_together self (ddt_translations db);
  Ok (self', set_translations rows db).

(** [Language.save] (models.py): upper-cases the two ISO codes on the
    instance, then saves it. *)
Definition Language_save (self : Language) (db : DB)
  : result (Language * DB) :=
  let self1 :=
    {| language_id := language_id self; language_name := language_name self;
       iso2 := upper (iso2 self); iso3 := iso3 self;
       django_language_name := django_language_name self |} in
  let self2 :=
    {| language_id := language_id self1; language_name := language_name self1;
       iso2 := iso2 self1; iso3 := upper (iso3 self1);
       django_language_name := django_language_name self1 |} in
  '(self', rows) ← Model_save MLanguage language_id Language_with_pk
                     Language_unique self2 (ddt_languages db);
  Ok (self', set_languages rows db).

(** ** Deleting rows

    models.py declares every foreign key as [ForeignKeyCascade]
    ([Field.content_type], [Item.field], [Item.content_type],
    [Translation.language], [Translation.item]) and imports that class from a
    module that is not among the sources.  The functions below give it the
    meaning the specification states: a delete collects the rows selected,
    then the rows whose [ForeignKeyCascade] column points to a collected row,
    and so on, and removes all of them. *)

(** No foreign key points to a translation: deleting translations removes
    them and nothing else. *)
Definition delete_translations (P : Translation → Prop)
    `{!∀ t, Decision (P t)} (db : DB) : DB :=
  set_translations (filter (λ t, ¬ P t) (ddt_translations db)) db.

(** Modelled from the spec: [ForeignKeyCascade], the type of
    [Translation.item], is missing from the sources; "Deleting an Item
    cascades to delete all its Translations". *)
Definition delete_items (P : Item → Prop) `{!∀ i, Decision (P i)}
    (db : DB) : DB :=
  let collected := filter P (ddt_items db) in
  delete_translations
    (λ t, Some (translation_item t) ∈ item_id <$> collected)
    (set_items (filter (λ i, ¬ P i) (ddt_items db)) db).

(** Modelled from the spec: [ForeignKeyCascade], the type of [Item.field], is
    missing from the sources; "Deleting a Field cascades to delete all its
    Items". *)
Definition delete_fields (P : Field → Prop) `{!∀ f, Decision (P f)}
    (db : DB) : DB :=
  let collected := filter P (ddt_fields db) in
  delete_items
    (λ i, Some (item_field i) ∈ field_id <$> collected)
    (set_fields (filter (λ f, ¬ P f) (ddt_fields db)) db).

(** Modelled from the spec: [ForeignKeyCascade], the type of
    [Translation.language], is missing from the sources; a translation
    "must reference an existing Item and Language" and is deleted "by cascade
    reactions to Field/Language/owning-object lifecycle events". *)
Definition delete_languages (P : Language → Prop) `{!∀ l, Decision (P l)}
    (db : DB) : DB :=
  let collected := filter P (ddt_languages db) in
  delete_translations
    (λ t, Some (translation_language t) ∈ language_id <$> collected)
    (set_languages (filter (λ l, ¬ P l) (ddt_languages db)) db).

(** [instance.delete()]: refuses an instance without primary key, otherwise
    deletes the row with that key and what cascades from it. *)
Definition Field_delete (self : Field) (db : DB) : result DB :=
  match field_id self with
  | None => Raise AssertionError
  | Some k => Ok (delete_fields (λ f, field_id f = Some k) db)
  end.

Definition Item_delete (self : Item) (db : DB) : result DB :=
  match item_id self with
  | None => Raise AssertionError
  | Some k => Ok (delete_items (λ i, item_id i = Some k) db)
  end.

Definition Language_delete (self : Language) (db : DB) : result DB :=
  match language_id self with
  | None => Raise AssertionError
  | Some k => Ok (delete_languages (λ l, language_id l = Some k) db)
  end.

Definition Translation_delete (self : Translation) (db : DB) : result DB :=
  match translation_id self with
  | None => Raise AssertionError
  | Some k => Ok (delete_translations (λ t, translation_id t = Some k) db)
  end.

(** ** [count_missing_translations] (models.py) *)

(** The queryset [Translation.objects.filter(item__field=...)] spans the
    relation [Translation.item]: it ranges over the join of the translations
    with their items. *)
Definition translations_join_items (db : DB) : list (Translation * Item) :=
  t ← ddt_translations db;
  i ← filter (λ i, item_id i = Some (translation_item t)) (ddt_items db);
  [(t, i)].

(** [Field.count_missing_translations]:
    [Translation.objects.filter(item__field=self).filter(text="").count()] *)
Definition Field_count_missing_translations (self : Field) (db : DB) : nat :=
  length
    (filter (λ ti, translation_text ti.1 = "")
       (filter (λ ti, column_is (item_field ti.2) (field_id self))
          (translations_join_items db))).

(** [Item.count_missing_translations]:
    [Translation.objects.filter(item=self).filter(text="").count()] *)
Definition Item_count_missing_translations (self : Item) (db : DB) : nat :=
  length
    (filter (λ t, translation_text t = "")
       (filter (λ t, column_is (translation_item t) (item_id self))
          (ddt_translations db))).

(** [Language.count_missing_translations]:
    [Translation.objects.filter(language=self).filter(text="").count()] *)
Definition Language_count_missing_translations (self : Language) (db : DB)
  : nat :=
  length
    (filter (λ t, translation_text t = "")
       (filter (λ t, column_is (translation_language t) (language_id self))
          (ddt_translations db))).

(** [Field.count_items]: [Item.objects.filter(field=self).count()] *)
Definition Field_count_items (self : Field) (db : DB) : nat :=
  length (filter (λ i, column_is (item_field i) (field_id self))
            (ddt_items db)).

(** ** Python values and dicts *)

(** A [FieldFile] / [ImageFieldFile]: [name] is [None] or a str, [url] and
    [path] are what the storage answers for that name. *)
Record FieldFile := {
  file_name : option string;
  file_url : string;
  file_path : string }.

(** [bool(file)] is [bool(file.name)]. *)
Definition file_truthy (f : FieldFile) : bool :=
  match file_name f with
  | None => false
  | Some n => str_truthy n
  end.

(** The values an attribute can hold.  [PModel fields] is an instance of a
    model other than [Item]: [fields] lists, in the order of
    [instance._meta.get_fields()], each field name with
    [getattr(instance, field.name, None)].

    The related instances below an instance are given as a tree.  An
    instance that reaches itself through its relations (a row that is its
    own parent) is not among these values, and Python's recursion limit is
    not modelled: on such an instance [instance_as_translated_dict] with
    [depth] on ends in [RecursionError], which is outside this
    development. *)
#[warnings="-register-all"]
Inductive pyval : Type :=
  | PNone
  | PBool (b : bool)
  | PInt (n : Z)
  | PStr (s : string)
  | PObject (tag : Z)
  | PState
  | PItem (item : Item)
  | PModel (fields : list (string * pyval))
  | PFieldFile (file : FieldFile)
  | PImageFieldFile (file : FieldFile)
  | PDict (d : list (string * pyval)).

(** A dict keeps its keys in insertion order; [d[k] = v] overwrites in place
    or appends. *)
Fixpoint dict_set {V} (k : string) (v : V) (d : list (string * V))
  : list (string * V) :=
  match d with
  | [] => [(k, v)]
  | (k', v') :: rest =>
      if decide (k' = k) then (k, v) :: rest else (k', v') :: dict_set k v rest
  end.

Fixpoint dict_get {V} (k : string) (d : list (string * V)) : option V :=
  match d with
  | [] => None
  | (k', v') :: rest => if decide (k' = k) then Some v' else dict_get k rest
  end.

(** [d.pop(k, None)], result discarded. *)
Fixpoint dict_pop {V} (k : string) (d : list (string * V))
  : list (string * V) :=
  match d with
  | [] => []
  | (k', v') :: rest =>
      if decide (k' = k) then dict_pop k rest else (k', v') :: dict_pop k rest
  end.

(** ** utils.py *)

(** The request: its session is a dict from keys to stored strings. *)
Record HttpRequest := { session : gmap string string }.

(** [django.utils.translation.LANGUAGE_SESSION_KEY] *)
Definition LANGUAGE_SESSION_KEY : string := "_language".

(** What [get_language_from_session] returns: a [Language] or [False]. *)
Inductive LanguageOrFalse : Type :=
  | PyFalse
  | Lang (language : Language).

(** [get_language_from_session(request)].  A [None] request has no
    [session] attribute. *)
Definition get_language_from_session (db : DB) (request : option HttpRequest)
  : result LanguageOrFalse :=
  match request with
  | None => Raise AttributeError
  | Some request =>
      match session request !! LANGUAGE_SESSION_KEY with
      | None => Ok PyFalse
      | Some language_name =>
          if str_truthy language_name then
            match objects_get MLanguage
                    (filter (λ l, django_language_name l = language_name)
                       (ddt_languages db)) with
            | Ok language => Ok (Lang language)
            | Raise (DoesNotExist MLanguage) => Ok PyFalse
            | Raise e => Raise e
            end
          else Ok PyFalse
      end
  end.

(** The value the lookup [language=...] compares the column with: the
    primary key of an instance; [False] is the integer 0. *)
Definition language_lookup_value (language : LanguageOrFalse) : option Z :=
  match language with
  | PyFalse => Some 0
  | Lang l => language_id l
  end.

(** [Translation.objects.get(item=value, language=language)] *)
Definition Translation_objects_get (db : DB) (item : option Z)
    (language : option Z) : result Translation :=
  objects_get MTranslation
    (filter (λ t, column_is (translation_item t) item ∧
                  column_is (translation_language t) language)
       (ddt_translations db)).

(** The loop [for field in fields: ...] of [instance_as_translated_dict]:
    a [None] value is skipped, any other value is converted by [new_value]
    and stored under the field name. *)
Definition fields_loop (new_value : pyval → result pyval)
  : list (string * pyval) → list (string * pyval) →
    result (list (string * pyval)) :=
  fix loop fields translated_dict :=
    match fields with
    | [] => Ok translated_dict
    | (name, value) :: fields' =>
        match value with
        | PNone => loop fields' translated_dict
        | _ =>
            v ← new_value value;
            loop fields' (dict_set name v translated_dict)
        end
    end.

(** The body of [instance_as_translated_dict] once the language is known.
    The recursive call of the source passes [language], so it goes straight
    to this body again. *)
Fixpoint as_translated_dict (db : DB) (language : LanguageOrFalse)
    (depth : bool) (instance : pyval) {struct instance}
  : result (list (string * pyval)) :=
  match instance with
  | PModel fields =>
      fields_loop
        (λ value,
           match value with
           | PItem item =>
               t ← Translation_objects_get db (item_id item)
                     (language_lookup_value language);
               Ok (PStr (translation_text t))
           | PModel _ =>
               if depth
               then d ← as_translated_dict db language true value; Ok (PDict d)
               else Ok value
           | PFieldFile file | PImageFieldFile file =>
               if file_truthy file
               then Ok (PDict [("name", PStr (default "" (file_name file)));
                               ("url", PStr (file_url file));
                               ("path", PStr (file_path file))])
               else Ok (PStr "")
           | _ => Ok value
           end)
        fields []
  | _ => Raise AttributeError
  end.

Definition instance_as_translated_dict (db : DB)
    (instance : list (string * pyval)) (depth : bool)
    (language : option LanguageOrFalse) (request : option HttpRequest)
  : result (list (string * pyval)) :=
  match language, request with
  | None, None =>
      Raise (TypeError "You must provide either 'language' or 'request'")
  | _, _ =>
      language ← match language with
                 | None => get_language_from_session db request
                 | Some l => Ok l
                 end;
      as_translated_dict db language depth (PModel instance)
  end.

(** The loop of [all_instances_as_translated_dict]. *)
Fixpoint instances_loop {A B} (f : A → result B) (instances : list A)
    (results : list B) : result (list B) :=
  match instances with
  | [] => Ok results
  | instance :: rest =>
      r ← f instance;
      instances_loop f rest (results ++ [r])
  end.

Definition all_instances_as_translated_dict (db : DB)
    (instances : list (list (string * pyval))) (depth : bool)
    (language : option LanguageOrFalse) (request : option HttpRequest)
  : result (list (list (string * pyval))) :=
  match language, request with
  | None, None =>
      Raise (TypeError "You must provide either 'language' or 'request'")
  | _, _ =>
      language ← match language with
                 | None => get_language_from_session db request
                 | Some l => Ok l
                 end;
      instances_loop
        (λ instance,
           instance_as_translated_dict db instance depth (Some language) None)
        instances []
  end.

(** [update_user_language(request, language, language_id)]: the result is
    the locale handed to [activate] and the request with its session
    written. *)
Definition update_user_language (db : DB) (request : HttpRequest)
    (language : option Language) (lang_id : option Z)
  : result (string * HttpRequest) :=
  match language, lang_id with
  | None, None =>
      Raise (TypeError "You must provide either 'language' or 'language_id'")
  | _, _ =>
      language ← match language with
                 | None =>
                     objects_get MLanguage
                       (filter (λ l, pk_is (language_id l) lang_id)
                          (ddt_languages db))
                 | Some l => Ok l
                 end;
      Ok (django_language_name language,
          {| session := <[LANGUAGE_SESSION_KEY := django_language_name language]>
                          (session request) |})
  end.

(** ** The [TranslatedModel] mixin (models.py) *)

(** An instance of a model that inherits from [TranslatedModel]:
    [self._meta.app_label], [self.__class__.__name__], [self.id] and
    [self.__dict__]. *)
Record TranslatedModel := {
  meta_app_label : string;
  class_name : string;
  self_id : option Z;
  self_dict : list (string * pyval) }.

Definition get_content_type_instance (self : TranslatedModel) (db : DB)
  : result ContentType :=
  let app := lower (meta_app_label self) in
  let model_ := lower (class_name self) in
  objects_get MContentType
    (filter (λ c, app_label c = app ∧ model c = model_)
       (django_content_type db)).

(** [field_name] is [None] when [get_translated_item] is called without
    [field] and without [field_name]; the lookup [name=None] selects no
    row. *)
Definition get_translated_field (self : TranslatedModel) (db : DB)
    (name : option string) : result Field :=
  content_type ← get_content_type_instance self db;
  objects_get MField
    (filter (λ f, column_is (field_content_type f) (ct_id content_type) ∧
                  name = Some (field_name f))
       (ddt_fields db)).

Definition get_translated_fields (self : TranslatedModel) (db : DB)
  : result (list Field) :=
  content_type ← get_content_type_instance self db;
  Ok (filter (λ f, column_is (field_content_type f) (ct_id content_type))
        (ddt_fields db)).

Definition get_translated_item (self : TranslatedModel) (db : DB)
    (field : option Field) (name : option string) : result Item :=
  field ← match field with
          | None => get_translated_field self db name
          | Some f => Ok f
          end;
  objects_get MItem
    (filter (λ i, column_is (item_object_id i) (self_id self) ∧
                  column_is (item_field i) (field_id field))
       (ddt_items db)).

Definition get_translated_items (self : TranslatedModel) (db : DB)
  : result (list Item) :=
  get_translated_fields self db ≫= λ fields : list Field,
  Ok (filter (λ i, column_is (item_object_id i) (self_id self) ∧
                   Some (item_field i) ∈ field_id <$> fields)
        (ddt_items db)).

(** [Language.objects.get(pk=language_id)] *)
Definition Language_objects_get_pk (db : DB) (lang_id : option Z)
  : result Language :=
  objects_get MLanguage
    (filter (λ l, pk_is (language_id l) lang_id) (ddt_languages db)).

Definition get_translation (self : TranslatedModel) (db : DB)
    (field : option Field) (name : option string)
    (language : option Language) (lang_id : option Z) : result Translation :=
  item ← get_translated_item self db field name;
  language ← match language with
             | None => Language_objects_get_pk db lang_id
             | Some l => Ok l
             end;
  Translation_objects_get db (item_id item) (language_id language).

Definition get_translations (self : TranslatedModel) (db : DB)
    (language : option Language) (lang_id : option Z)
  : result (list Translation) :=
  get_translated_items self db ≫= λ items : list Item,
  language ← match language with
             | None => Language_objects_get_pk db lang_id
             | Some l => Ok l
             end;
  Ok (filter (λ t, column_is (translation_language t) (language_id language) ∧
                   Some (translation_item t) ∈ item_id <$> items)
        (ddt_translations db)).

Definition get_translations_all_languages (self : TranslatedModel) (db : DB)
  : result (list Translation) :=
  get_translated_items self db ≫= λ items : list Item,
  Ok (filter (λ t, Some (translation_item t) ∈ item_id <$> items)
        (ddt_translations db)).

(** The loop [for field in translated_fields: ...] of
    [dict_with_translations]. *)
Fixpoint translations_loop (self : TranslatedModel) (db : DB)
    (language : Language) (translated_fields : list Field)
    (field_dict : list (string * pyval)) : result (list (string * pyval)) :=
  match translated_fields with
  | [] => Ok field_dict
  | field :: rest =>
      translation ← get_translation self db (Some field) None
                      (Some language) None;
      translations_loop self db language rest
        (dict_set (field_name field) (PStr (translation_text translation))
           field_dict)
  end.

Definition dict_with_translations (self : TranslatedModel) (db : DB)
    (language : option Language) (lang_id : option Z)
  : result (list (string * pyval)) :=
  let field_dict := dict_pop "_state" (self_dict self) in
  language ← match language with
             | None => Language_objects_get_pk db lang_id
             | Some l => Ok l
             end;
  translated_fields ← get_translated_fields self db;
  translations_loop self db language translated_fields field_dict.

(** Modelled from the spec: [ForeignKeyCascade], the type of
    [Field.content_type] and [Item.content_type], is missing from the
    sources; with the cascade meaning the specification gives it, deleting a
    content type takes its fields and items. *)
Definition delete_content_types (P : ContentType → Prop)
    `{!∀ c, Decision (P c)} (db : DB) : DB :=
  let collected := filter P (django_content_type db) in
  delete_fields
    (λ f, Some (field_content_type f) ∈ ct_id <$> collected)
    (delete_items
       (λ i, Some (item_content_type i) ∈ ct_id <$> collected)
       (set_content_types (filter (λ c, ¬ P c) (django_content_type db)) db)).

Definition ContentType_delete (self : ContentType) (db : DB) : result DB :=
  match ct_id self with
  | None => Raise AssertionError
  | Some k => Ok (delete_content_types (λ c, ct_id c = Some k) db)
  end.

(** ** The database as a transition system

    Every write goes through [save] or [delete] of one of the models; rows
    created or removed in reaction to another write are written by the same
    calls. *)

Inductive step : DB → DB → Prop :=
  | step_ContentType_save self self' db db' :
      ContentType_save self db = Ok (self', db') → step db db'
  | step_Field_save self self' db db' :
      Field_save self db = Ok (self', db') → step db db'
  | step_Item_save self self' db db' :
      Item_save self db = Ok (self', db') → step db db'
  | step_Language_save self self' db db' :
      Language_save self db = Ok (self', db') → step db db'
  | step_Translation_save self self' db db' :
      Translation_save self db = Ok (self', db') → step db db'
  | step_ContentType_delete self db db' :
      ContentType_delete self db = Ok db' → step db db'
  | step_Field_delete self db db' :
      Field_delete self db = Ok db' → step db db'
  | step_Item_delete self db db' :
      Item_delete self db = Ok db' → step db db'
  | step_Language_delete self db db' :
      Language_delete self db = Ok db' → step db db'
  | step_Translation_delete self db db' :
      Translation_delete self db = Ok db' → step db db'.

Inductive reachable : DB → Prop :=
  | reachable_empty : reachable empty_db
  | reachable_step db db' : reachable db → step db db' → reachable db'.

(** The constraints of the five tables together. *)
Definition db_ok (db : DB) : Prop :=
  table_ok ct_id ContentType_unique (django_content_type db) ∧
  table_ok field_id Field_unique_together (ddt_fields db) ∧
  table_ok item_id Item_unique_together (ddt_items db) ∧
  table_ok language_id Language_unique (ddt_languages db) ∧
  table_ok translation_id Translation_unique_together (ddt_translations db).

(** The rows of [ddt_translations] for one (item, language) pair. *)
Definition translations_of (db : DB) (item language : Z) : list Translation :=
  filter (λ t, translation_item t = item ∧ translation_language t = language)
    (ddt_translations db).

(** At most one translation per (item, language) pair. *)
Definition unique_translation (db : DB) : Prop :=
  ∀ item language, (length (translations_of db item language) ≤ 1)%nat.

(** The translations whose item is a stored item of the field. *)
Definition translation_of_field (db : DB) (self : Field) (t : Translation)
  : Prop :=
  Exists (λ i, item_id i = Some (translation_item t) ∧
               field_id self = Some (item_field i))
    (ddt_items db).

(** ** The rows a mixin lookup is looking for *)

(** A "not found" failure: [Model.DoesNotExist] of some model. *)
Definition not_found {A} (r : result A) : Prop :=
  ∃ m, r = Raise (DoesNotExist m).

(** The content type row of the instance's model. *)
Definition matching_content_type (self : TranslatedModel) (db : DB)
    (c : ContentType) : Prop :=
  c ∈ django_content_type db ∧
  app_label c = lower (meta_app_label self) ∧
  model c = lower (class_name self).

(** The [Field] row of the instance's model with the given name. *)
Definition matching_field (self : TranslatedModel) (db : DB)
    (name : option string) (f : Field) : Prop :=
  ∃ c, matching_content_type self db c ∧
       f ∈ ddt_fields db ∧
       ct_id c = Some (field_content_type f) ∧
       name = Some (field_name f).

(** The field the caller designates: the instance passed as [field], or
    else the row found from [field_name]. *)
Definition designated_field (self : TranslatedModel) (db : DB)
    (field : option Field) (name : option string) (f : Field) : Prop :=
  match field with
  | Some f' => f = f'
  | None => matching_field self db name f
  end.

(** The [Item] row of the instance for the designated field. *)
Definition matching_item (self : TranslatedModel) (db : DB)
    (field : option Field) (name : option string) (i : Item) : Prop :=
  ∃ f, designated_field self db field name f ∧
       i ∈ ddt_items db ∧
       self_id self = Some (item_object_id i) ∧
       field_id f = Some (item_field i).

(** The language the caller designates: the instance passed as [language],
    or else the row with primary key [language_id]. *)
Definition designated_language (db : DB) (language : option Language)
    (lang_id : option Z) (l : Language) : Prop :=
  match language with
  | Some l' => l = l'
  | None => l ∈ ddt_languages db ∧ pk_is (language_id l) lang_id
  end.

(** The [Translation] row of the instance's item in the designated
    language. *)
Definition matching_translation (self : TranslatedModel) (db : DB)
    (field : option Field) (name : option string)
    (language : option Language) (lang_id : option Z) (t : Translation)
  : Prop :=
  ∃ i, matching_item self db field name i ∧
  ∃ l, designated_language db language lang_id l ∧
       t ∈ ddt_translations db ∧
       item_id i = Some (translation_item t) ∧
       language_id l = Some (translation_language t).

(** A lookup either returns the one row that matches, or fails with "not
    found" when no row matches. *)
Definition lookup_spec {A} (res : result A) (matching : A → Prop) : Prop :=
  (∃ r, res = Ok r ∧ matching r ∧ ∀ r', matching r' → r' = r) ∨
  (not_found res ∧ ∀ r, ¬ matching r).

(** The frame of [dict_with_translations] as the specification words it:
    every attribute of the instance that is not a translated field is in the
    dict with its value. *)
Definition frame_as_specified (self : TranslatedModel) (fields : list Field)
    (d : list (string * pyval)) : Prop :=
  ∀ k v, dict_get k (self_dict self) = Some v →
         k ∉ field_name <$> fields →
         dict_get k d = Some v.

(** ** What a field value becomes in [instance_as_translated_dict] *)

(** The conversion applied to a value that is not [None]: the four cases of
    the loop body. *)
Definition new_value (db : DB) (language : LanguageOrFalse) (depth : bool)
    (value : pyval) : result pyval :=
  match value with
  | PItem item =>
      t ← Translation_objects_get db (item_id item)
            (language_lookup_value language);
      Ok (PStr (translation_text t))
  | PModel _ =>
      if depth
      then d ← as_translated_dict db language true value; Ok (PDict d)
      else Ok value
  | PFieldFile file | PImageFieldFile file =>
      if file_truthy file
      then Ok (PDict [("name", PStr (default "" (file_name file)));
                      ("url", PStr (file_url file));
                      ("path", PStr (file_path file))])
      else Ok (PStr "")
  | _ => Ok value
  end.

(** The {name, url, path} dict of a file. *)
Definition file_triple (file : FieldFile) : pyval :=
  PDict [("name", PStr (default "" (file_name file)));
         ("url", PStr (file_url file));
         ("path", PStr (file_path file))].

(** The translation row of an item in a language. *)
Definition translation_of (db : DB) (item : Item) (language : LanguageOrFalse)
    (t : Translation) : Prop :=
  t ∈ ddt_translations db ∧
  item_id item = Some (translation_item t) ∧
  language_lookup_value language = Some (translation_language t).

(** The case analysis as the specification words it: what the result dict
    holds under the name of a field, given the field's value. *)
Definition entry_as_specified (db : DB) (language : LanguageOrFalse)
    (depth : bool) (value : pyval) (entry : option pyval) : Prop :=
  match value with
  | PItem item =>
      ∃ t, translation_of db item language t ∧
           entry = Some (PStr (translation_text t))
  | PModel fields =>
      if depth
      then ∃ d, instance_as_translated_dict db fields true (Some language) None
                  = Ok d ∧ entry = Some (PDict d)
      else entry = Some value
  | PFieldFile file | PImageFieldFile file => entry = Some (file_triple file)
  | _ => entry = Some value
  end.

(** The case analysis of the code: a [None] value leaves no entry and a
    file without a name becomes the empty string. *)
Definition entry_as_coded (db : DB) (language : LanguageOrFalse)
    (depth : bool) (value : pyval) (entry : option pyval) : Prop :=
  match value with
  | PNone => entry = None
  | PItem item =>
      ∃ t, translation_of db item language t ∧
           entry = Some (PStr (translation_text t))
  | PModel fields =>
      if depth
      then ∃ d, instance_as_translated_dict db fields true (Some language) None
                  = Ok d ∧ entry = Some (PDict d)
      else entry = Some value
  | PFieldFile file | PImageFieldFile file =>
      entry = Some (if file_truthy file then file_triple file else PStr "")
  | _ => entry = Some value
  end.

(** Every [Item] that [instance_as_translated_dict] meets in a value has its
    translation in the language: the items of the value itself and, when
    [depth] is on, of the instances below it. *)
Fixpoint translations_exist (db : DB) (language : LanguageOrFalse)
    (depth : bool) (value : pyval) {struct value} : Prop :=
  match value with
  | PItem item =>
      is_Ok (Translation_objects_get db (item_id item)
               (language_lookup_value language))
  | PModel fields =>
      if depth
      then (fix all (fs : list (string * pyval)) : Prop :=
              match fs with
              | [] => True
              | (_, v) :: fs' => translations_exist db language true v ∧ all fs'
              end) fields
      else True
  | _ => True
  end.

(** ** A small shop database, used to run the definitions *)

Module Sample.
Definition product_type : ContentType :=
  {| ct_id := Some 7; app_label := "shop"; model := "product" |}.

Definition name_field : Field :=
  {| field_id := Some 1; field_content_type := 7; field_name := "name" |}.
Definition description_field : Field :=
  {| field_id := Some 2; field_content_type := 7;
     field_name := "description" |}.

Definition chair_name : Item :=
  {| item_id := Some 10; item_field := 1; item_object_id := 1;
     item_content_type := 7 |}.
Definition chair_description : Item :=
  {| item_id := Some 11; item_field := 2; item_object_id := 1;
     item_content_type := 7 |}.
Definition table_name : Item :=
  {| item_id := Some 12; item_field := 1; item_object_id := 2;
     item_content_type := 7 |}.

Definition french : Language :=
  {| language_id := Some 1; language_name := "French"; iso2 := "FR";
     iso3 := "FRA"; django_language_name := "fr" |}.
Definition english : Language :=
  {| language_id := Some 2; language_name := "English"; iso2 := "EN";
     iso3 := "ENG"; django_language_name := "en" |}.

Definition translation (k language item : Z) (text : string) : Translation :=
  {| translation_id := Some k; translation_language := language;
     translation_item := item; translation_text := text |}.

Definition db : DB :=
  {| django_content_type := [product_type];
     ddt_fields := [name_field; description_field];
     ddt_items := [chair_name; chair_description; table_name];
     ddt_languages := [french; english];
     ddt_translations :=
       [translation 100 1 10 "Chaise"; translation 101 2 10 "Chair";
        translation 102 1 11 ""; translation 103 2 11 "A seat";
        translation 104 1 12 ""; translation 105 2 12 "Table"] |}.

(** The product "chair" as a [TranslatedModel] instance. *)
Definition chair : TranslatedModel :=
  {| meta_app_label := "shop"; class_name := "Product"; self_id := Some 1;
     self_dict := [("_state", PState); ("id", PInt 1);
                   ("meta_info", PStr "chair"); ("name_id", PInt 10);
                   ("description_id", PInt 11); ("price", PInt 30)] |}.

(** Its dict in English. *)
Definition chair_dict : list (string * pyval) :=
  [("id", PInt 1); ("meta_info", PStr "chair"); ("name_id", PInt 10);
   ("description_id", PInt 11); ("price", PInt 30);
   ("name", PStr "Chair"); ("description", PStr "A seat")].

Definition no_picture : FieldFile :=
  {| file_name := None; file_url := ""; file_path := "" |}.
Definition manual : FieldFile :=
  {| file_name := Some "manuals/chair.pdf";
     file_url := "/media/manuals/chair.pdf";
     file_path := "/srv/media/manuals/chair.pdf" |}.

(** The same product as seen by [instance_as_translated_dict]: its fields
    with their values. *)
Definition chair_fields : list (string * pyval) :=
  [("id", PInt 1); ("meta_info", PStr "chair");
   ("name", PItem chair_name); ("description", PItem chair_description);
   ("picture", PImageFieldFile no_picture); ("manual", PFieldFile manual);
   ("category", PModel [("id", PInt 3); ("label", PStr "furniture");
                        ("parent", PNone)]);
   ("discount", PNone)].

Definition chair_translated : list (string * pyval) :=
  [("id", PInt 1); ("meta_info", PStr "chair");
   ("name", PStr "Chair"); ("description", PStr "A seat");
   ("picture", PStr ""); ("manual", file_triple manual);
   ("category", PDict [("id", PInt 3); ("label", PStr "furniture")])].

(** A language as typed in a form, before it is saved. *)
Definition spanish_typed : Language :=
  {| language_id := None; language_name := "Spanish"; iso2 := "es";
     iso3 := "Spa"; django_language_name := "es" |}.
Definition spanish_saved : Language :=
  {| language_id := Some 3; language_name := "Spanish"; iso2 := "ES";
     iso3 := "SPA"; django_language_name := "es" |}.

(** Two states reached from the empty database. *)
Definition db1 : DB := set_translations [translation 1 1 10 "Chaise"] empty_db.
Definition db2 : DB :=
  set_translations [translation 1 1 10 "Chaise"; translation 2 2 10 "Chair"]
    empty_db.

(** A language typed with an empty locale identifier, the row its save
    stores, and the state after that save on the empty database. *)
Definition unnamed_locale_typed : Language :=
  {| language_id := None; language_name := "Klingon"; iso2 := "tl";
     iso3 := "tlh"; django_language_name := "" |}.
Definition unnamed_locale : Language :=
  {| language_id := Some 1; language_name := "Klingon"; iso2 := "TL";
     iso3 := "TLH"; django_language_name := "" |}.
Definition unnamed_locale_db : DB := set_languages [unnamed_locale] empty_db.

Definition request : HttpRequest := {| session := ∅ |}.
Definition french_request : HttpRequest :=
  {| session := {[ LANGUAGE_SESSION_KEY := "fr" ]} |}.
Definition german_request : HttpRequest :=
  {| session := {[ LANGUAGE_SESSION_KEY := "de" ]} |}.
End Sample.

(** ** More of utils.py and models.py: definitions for the further facts *)

(** The language a serializer works with: the one passed, or else the one
    read from the session of the request. *)
Definition resolved_language (db : DB) (language : option LanguageOrFalse)
    (request : option HttpRequest) : result LanguageOrFalse :=
  match language with
  | None => get_language_from_session db request
  | Some l => Ok l
  end.

(** A value that is not [None]. *)
Definition not_None (value : pyval) : Prop :=
  match value with PNone => False | _ => True end.
#[global] Instance not_None_dec value : Decision (not_None value).
Proof. destruct value; simpl; apply _. Defined.

(** A value that is not a model instance. *)
Definition not_Model (value : pyval) : Prop :=
  match value with PModel _ => False | _ => True end.


(** Both ISO codes of the language are in upper case. *)
Definition iso_upper (l : Language) : Prop :=
  iso2 l = upper (iso2 l) ∧ iso3 l = upper (iso3 l).

(** A second shop database: the sample one after a language typed in lower
    case was saved, and the state that one save reaches from the empty
    database. *)
Module Sample2.
Definition db_with_spanish : DB :=
set_languages (ddt_languages Sample.db ++ [Sample.spanish_saved]) Sample.db.

Definition first_language : Language :=
{| language_id := Some 1; language_name := "Spanish"; iso2 := "ES";
   iso3 := "SPA"; django_language_name := "es" |}.
Definition one_language : DB := set_languages [first_language] empty_db.

(** The Spanish codes typed in another case, as a language of its own. *)
Definition castilian_typed : Language :=
{| language_id := None; language_name := "Castilian"; iso2 := "Es";
   iso3 := "cas"; django_language_name := "es-ES" |}.
End Sample2.

(** [s[:n]] for a Python str: the first [n] characters, all of [s] when it
    is shorter. *)
Fixpoint str_slice_to (n : nat) (s : string) : string :=
  match n, s with
  | O, _ => EmptyString
  | S _, EmptyString => EmptyString
  | S n', String c rest => String c (str_slice_to n' rest)
  end.

(** [Translation.truncated_text]: [self.text[:20]].  The source wraps the
    slice in [try ... except IndexError: return self.text]; slicing a str
    raises no [IndexError], so that handler is never entered. *)
Definition Translation_truncated_text (self : Translation) : string :=
  str_slice_to 20 (translation_text self).

(** [translation.text = text], the assignment that precedes
    [translation.save()] when a text is written. *)
Definition Translation_with_text (text : string) (t : Translation)
  : Translation :=
  {| translation_id := translation_id t;
     translation_language := translation_language t;
     translation_item := translation_item t;
     translation_text := text |}.

(** 1 when the text is empty, 0 otherwise: what one translation adds to a
    count of missing translations. *)
Definition missing (text : string) : nat :=
  if decide (text = "") then 1%nat else 0%nat.

(** The sample product before it was saved: the same instance without
    primary key. *)
Module Sample3.
Definition unsaved_chair : TranslatedModel :=
{| meta_app_label := "shop"; class_name := "Product"; self_id := None;
   self_dict := [("_state", PState); ("id", PNone);
                 ("meta_info", PStr "chair")] |}.

(** A product row without related instance. *)
Definition flat_fields : list (string * pyval) :=
[("id", PInt 1); ("name", PItem Sample.chair_name);
 ("picture", PImageFieldFile Sample.no_picture); ("discount", PNone)].

(** An item that has no translation in the sample database, and a product
  row that holds it. *)
Definition stray_item : Item :=
{| item_id := Some 99; item_field := 1; item_object_id := 9;
   item_content_type := 7 |}.
Definition stray_fields : list (string * pyval) :=
[("id", PInt 9); ("name", PItem stray_item)].

(** A category: a row without translated field. *)
Definition category_fields : list (string * pyval) :=
[("id", PInt 3); ("label", PStr "furniture"); ("parent", PNone)].


(** The requests after the user chose English, and French before that. *)
Definition english_request : HttpRequest :=
{| session := <[LANGUAGE_SESSION_KEY := "en"]> (session Sample.request) |}.
Definition french_then_english_request : HttpRequest :=
{| session := <[LANGUAGE_SESSION_KEY := "en"]>
                (session Sample.french_request) |}.

(** The empty description of the chair in French, and the database after a
  text was written on it. *)
Definition empty_description : Translation := Sample.translation 102 1 11 "".
End Sample3.

(** * Part II: facts and theorems *)

(** * Facts about tables and their constraints *)

Section TableFacts.
Context {A : Type}.
Variable m : model_name.
Variable pk : A → option Z.
Variable collides : A → A → Prop.
Context `{!RelDecision collides}.

Lemma max_pk_ge (rows : list A) r k :
  r ∈ rows → pk r = Some k → k ≤ max_pk pk rows.
Proof.
  induction rows as [|x rows IH]; intros Hin Hk.
  - inversion Hin.
  - apply elem_of_cons in Hin as [->|Hin]; simpl.
    + rewrite Hk. lia.
    + specialize (IH Hin Hk). destruct (pk x); lia.
Qed.

Lemma table_ok_nil : table_ok pk collides [].
Proof.
  split; [constructor|]. intros r r' Hr. inversion Hr.
Qed.

Lemma table_ok_sublist (rows rows' : list A) :
  rows' `sublist_of` rows →
  table_ok pk collides rows → table_ok pk collides rows'.
Proof.
  intros Hsub [Hnd Hu]. split.
  - eapply sublist_NoDup; [exact Hnd|]. by apply fmap_sublist.
  - intros r r' Hr Hr'. apply Hu; eapply elem_of_sublist; eauto.
Qed.

Lemma table_ok_filter (P : A → Prop) `{!∀ x, Decision (P x)} rows :
  table_ok pk collides rows → table_ok pk collides (filter P rows).
Proof. apply table_ok_sublist, sublist_filter. Qed.

(** A filter whose rows all share a primary key selects at most one row. *)
Lemma filter_at_most_one (P : A → Prop) `{!∀ x, Decision (P x)} rows :
  NoDup (pk <$> rows) →
  (∀ r r', r ∈ rows → r' ∈ rows → P r → P r' → pk r = pk r') →
  (length (filter P rows) ≤ 1)%nat.
Proof.
  intros Hnd Hsame.
  destruct (filter P rows) as [|x [|y l]] eqn:Hf; simpl; try lia.
  exfalso.
  assert (Hsub : [x; y] `sublist_of` rows).
  { transitivity (filter P rows); [|apply sublist_filter].
    rewrite Hf. do 2 apply sublist_skip. apply sublist_nil_l. }
  assert (Hx : x ∈ filter P rows) by (rewrite Hf; set_solver).
  assert (Hy : y ∈ filter P rows) by (rewrite Hf; set_solver).
  apply list_elem_of_filter in Hx as [Px Hx], Hy as [Py Hy].
  pose proof (Hsame x y Hx Hy Px Py) as Heq.
  assert (Hnd2 : NoDup (pk <$> [x; y])).
  { eapply sublist_NoDup; [exact Hnd|]. by apply fmap_sublist. }
  simpl in Hnd2. rewrite Heq in Hnd2.
  apply NoDup_cons in Hnd2 as [Hn _]. apply Hn. set_solver.
Qed.

Lemma table_ok_at_most_one (P : A → Prop) `{!∀ x, Decision (P x)} rows :
  table_ok pk collides rows →
  (∀ r r', P r → P r' → collides r r') →
  (length (filter P rows) ≤ 1)%nat.
Proof.
  intros [Hnd Hu] HP. apply filter_at_most_one; auto.
Qed.
End TableFacts.

(** A filter that selects at most one row selects none or exactly one. *)
Lemma filter_le_1_cases {A} (P : A → Prop) `{!∀ x, Decision (P x)}
    (rows : list A) :
  (length (filter P rows) ≤ 1)%nat →
  (filter P rows = [] ∧ ∀ r, r ∈ rows → ¬ P r) ∨
  (∃ r, filter P rows = [r] ∧ r ∈ rows ∧ P r ∧
        ∀ r', r' ∈ rows → P r' → r' = r).
Proof.
  intros Hlen.
  destruct (filter P rows) as [|x [|y l]] eqn:Hf; simpl in *; try lia.
  - left. split; [done|]. intros r Hr HP.
    eapply filter_nil_not_elem_of; eauto.
  - right. exists x.
    assert (Hx : x ∈ filter P rows) by (rewrite Hf; apply list_elem_of_singleton; done).
    apply list_elem_of_filter in Hx as [Px Hx]. repeat split; auto.
    intros r' Hr' Pr'.
    assert (Hin : r' ∈ filter P rows) by (apply list_elem_of_filter; auto).
    rewrite Hf in Hin. by apply list_elem_of_singleton in Hin.
Qed.

Section TableSave.
Context {A : Type}.
Variable m : model_name.
Variable pk : A → option Z.
Variable with_pk : Z → A → A.
Variable collides : A → A → Prop.
Context `{!RelDecision collides}.
Hypothesis collides_sym : ∀ r r', collides r r' → collides r' r.
Hypothesis pk_with_pk : ∀ k r, pk (with_pk k r) = Some k.

Lemma table_ok_snoc (rows : list A) r :
  table_ok pk collides rows →
  pk r ∉ pk <$> rows →
  (∀ r', r' ∈ rows → ¬ collides r r') →
  table_ok pk collides (rows ++ [r]).
Proof.
  intros [Hnd Hu] Hfresh Hfree. split.
  - rewrite fmap_app. apply NoDup_app. split; [done|]. split.
    + intros x Hx Hx'. apply list_elem_of_singleton in Hx'. by subst.
    + apply NoDup_singleton.
  - intros r1 r2 H1 H2 Hc.
    apply elem_of_app in H1 as [H1|H1], H2 as [H2|H2];
      rewrite ?list_elem_of_singleton in H1; rewrite ?list_elem_of_singleton in H2;
      subst; auto.
    + exfalso. eapply Hfree; eauto.
    + exfalso. eapply Hfree; eauto.
Qed.

Lemma replace_pk_pks k self rows :
  pk self = Some k → pk <$> replace_pk pk k self rows = pk <$> rows.
Proof.
  intros Hk. unfold replace_pk. rewrite <- list_fmap_compose.
  apply list_fmap_ext. intros i x _. simpl.
  destruct (decide (pk x = Some k)); congruence.
Qed.

Lemma elem_of_replace_pk k self rows r :
  r ∈ replace_pk pk k self rows →
  (r = self) ∨ (r ∈ rows ∧ pk r ≠ Some k).
Proof.
  unfold replace_pk. intros Hin.
  apply list_elem_of_fmap in Hin as (x & -> & Hx).
  destruct (decide (pk x = Some k)); auto.
Qed.

Lemma table_ok_replace_pk k self rows :
  table_ok pk collides rows →
  pk self = Some k →
  (∀ r', r' ∈ rows → pk r' ≠ Some k → ¬ collides self r') →
  table_ok pk collides (replace_pk pk k self rows).
Proof.
  intros [Hnd Hu] Hk Hfree. split.
  - by rewrite replace_pk_pks.
  - intros r1 r2 H1 H2 Hc.
    apply elem_of_replace_pk in H1 as [->|[H1 N1]];
      apply elem_of_replace_pk in H2 as [->|[H2 N2]]; auto.
    + exfalso. eapply Hfree; eauto.
    + exfalso. eapply Hfree; eauto.
Qed.

Lemma Model_save_table_ok self rows self' rows' :
  table_ok pk collides rows →
  Model_save m pk with_pk collides self rows = Ok (self', rows') →
  table_ok pk collides rows'.
Proof.
  intros Hok. unfold Model_save.
  destruct (pk self) as [k|] eqn:Hk.
  - destruct (decide (Exists _ rows)) as [|Hfree]; [done|].
    rewrite Exists_exists in Hfree.
    destruct (decide (Exists _ rows)) as [Hex|Hnew]; intros [= <- <-].
    + apply table_ok_replace_pk; auto.
      intros r' Hr' Hne Hc. apply Hfree. eauto.
    + apply table_ok_snoc; auto.
      * rewrite Hk. intros Hin. apply Hnew, Exists_exists.
        apply list_elem_of_fmap in Hin as (x & Hx & Hin). eauto.
      * intros r' Hr' Hc. apply Hfree. exists r'. split; [done|]. split; [|done].
        intros Heq. apply Hnew, Exists_exists. eauto.
  - simpl. destruct (decide (Exists _ rows)) as [|Hfree]; [done|].
    rewrite Exists_exists in Hfree. intros [= <- <-].
    apply table_ok_snoc; auto.
    + rewrite pk_with_pk. intros Hin.
      apply list_elem_of_fmap in Hin as (x & Hx & Hin).
      symmetry in Hx. pose proof (max_pk_ge pk _ _ _ Hin Hx). lia.
    + intros r' Hr' Hc. apply Hfree. eauto.
Qed.
End TableSave.

(** * The constraints are kept by every write *)

Lemma ContentType_unique_sym c c' :
  ContentType_unique c c' → ContentType_unique c' c.
Proof. unfold ContentType_unique. intuition congruence. Qed.
Lemma Field_unique_together_sym f f' :
  Field_unique_together f f' → Field_unique_together f' f.
Proof. unfold Field_unique_together. intuition congruence. Qed.
Lemma Item_unique_together_sym i i' :
  Item_unique_together i i' → Item_unique_together i' i.
Proof. unfold Item_unique_together. intuition congruence. Qed.
Lemma Language_unique_sym l l' : Language_unique l l' → Language_unique l' l.
Proof. unfold Language_unique. intuition congruence. Qed.
Lemma Translation_unique_together_sym t t' :
  Translation_unique_together t t' → Translation_unique_together t' t.
Proof. unfold Translation_unique_together. intuition congruence. Qed.

Create HintDb tables.
#[local] Hint Resolve ContentType_unique_sym Field_unique_together_sym
  Item_unique_together_sym Language_unique_sym
  Translation_unique_together_sym : tables.
#[local] Hint Resolve table_ok_filter : tables.

(** A save that returned: split the monadic bind, naming the instance and
    the rows that [Model_save] gave back. *)
Tactic Notation "save_inv" hyp(H) "as" ident(saved) ident(rows) :=
  match type of H with
  | (Model_save ?m ?pk ?w ?c ?self ?old ≫= _) = Ok _ =>
      destruct (Model_save m pk w c self old) as [[saved rows]|?] eqn:Esave;
      simpl in H; [injection H as <- <-|discriminate H]
  end.

Lemma save_db_ok db db' :
  db_ok db →
  (∃ self self', ContentType_save self db = Ok (self', db')) ∨
  (∃ self self', Field_save self db = Ok (self', db')) ∨
  (∃ self self', Item_save self db = Ok (self', db')) ∨
  (∃ self self', Language_save self db = Ok (self', db')) ∨
  (∃ self self', Translation_save self db = Ok (self', db')) →
  db_ok db'.
Proof.
  intros (Hc & Hf & Hi & Hl & Ht) Hsave.
  destruct Hsave as [(s & s' & H)|[(s & s' & H)|[(s & s' & H)|[(s & s' & H)|(s & s' & H)]]]].
  - unfold ContentType_save in H. save_inv H as saved rows.
    repeat split; simpl; try apply Hc; try apply Hf; try apply Hi; try apply Hl; try apply Ht;
      eapply Model_save_table_ok in Esave; eauto with tables; apply Esave.
  - unfold Field_save in H. save_inv H as saved rows.
    repeat split; simpl; try apply Hc; try apply Hf; try apply Hi; try apply Hl; try apply Ht;
      eapply Model_save_table_ok in Esave; eauto with tables; apply Esave.
  - unfold Item_save in H. save_inv H as saved rows.
    repeat split; simpl; try apply Hc; try apply Hf; try apply Hi; try apply Hl; try apply Ht;
      eapply Model_save_table_ok in Esave; eauto with tables; apply Esave.
  - unfold Language_save in H. save_inv H as saved rows.
    repeat split; simpl; try apply Hc; try apply Hf; try apply Hi; try apply Hl; try apply Ht;
      eapply Model_save_table_ok in Esave; eauto with tables; apply Esave.
  - unfold Translation_save in H. save_inv H as saved rows.
    repeat split; simpl; try apply Hc; try apply Hf; try apply Hi; try apply Hl; try apply Ht;
      eapply Model_save_table_ok in Esave; eauto with tables; apply Esave.
Qed.

(** One table changed, the others are the same. *)
Ltac db_ok_tables :=
  refine (conj _ (conj _ (conj _ (conj _ _)))); simpl;
  try assumption; try (apply table_ok_filter; assumption).

Lemma delete_translations_db_ok (P : Translation → Prop)
    `{!∀ t, Decision (P t)} db :
  db_ok db → db_ok (delete_translations P db).
Proof.
  intros (Hc & Hf & Hi & Hl & Ht).
  db_ok_tables.
Qed.

Lemma delete_items_db_ok (P : Item → Prop) `{!∀ i, Decision (P i)} db :
  db_ok db → db_ok (delete_items P db).
Proof.
  intros (Hc & Hf & Hi & Hl & Ht). unfold delete_items.
  apply delete_translations_db_ok.
  db_ok_tables.
Qed.

Lemma delete_fields_db_ok (P : Field → Prop) `{!∀ f, Decision (P f)} db :
  db_ok db → db_ok (delete_fields P db).
Proof.
  intros (Hc & Hf & Hi & Hl & Ht). unfold delete_fields.
  apply delete_items_db_ok.
  db_ok_tables.
Qed.

Lemma delete_languages_db_ok (P : Language → Prop)
    `{!∀ l, Decision (P l)} db :
  db_ok db → db_ok (delete_languages P db).
Proof.
  intros (Hc & Hf & Hi & Hl & Ht). unfold delete_languages.
  apply delete_translations_db_ok.
  db_ok_tables.
Qed.

Lemma delete_content_types_db_ok (P : ContentType → Prop)
    `{!∀ c, Decision (P c)} db :
  db_ok db → db_ok (delete_content_types P db).
Proof.
  intros (Hc & Hf & Hi & Hl & Ht). unfold delete_content_types.
  apply delete_fields_db_ok, delete_items_db_ok.
  db_ok_tables.
Qed.

Lemma empty_db_ok : db_ok empty_db.
Proof. repeat split; simpl; try constructor; intros r r' Hr; inversion Hr. Qed.

Lemma step_db_ok db db' : db_ok db → step db db' → db_ok db'.
Proof.
  intros Hok Hstep.
  destruct Hstep as
    [s s' db db' H|s s' db db' H|s s' db db' H|s s' db db' H|s s' db db' H
    |s db db' H|s db db' H|s db db' H|s db db' H|s db db' H].
  1-5: eapply save_db_ok; [exact Hok|]; eauto 10.
  - unfold ContentType_delete in H. destruct (ct_id s); [|done].
    injection H as <-. by apply delete_content_types_db_ok.
  - unfold Field_delete in H. destruct (field_id s); [|done].
    injection H as <-. by apply delete_fields_db_ok.
  - unfold Item_delete in H. destruct (item_id s); [|done].
    injection H as <-. by apply delete_items_db_ok.
  - unfold Language_delete in H. destruct (language_id s); [|done].
    injection H as <-. by apply delete_languages_db_ok.
  - unfold Translation_delete in H. destruct (translation_id s); [|done].
    injection H as <-. by apply delete_translations_db_ok.
Qed.

Lemma reachable_db_ok db : reachable db → db_ok db.
Proof.
  induction 1 as [|db db' _ IH Hstep]; [apply empty_db_ok|].
  eapply step_db_ok; eauto.
Qed.

Lemma db_ok_unique_translation db : db_ok db → unique_translation db.
Proof.
  intros (_ & _ & _ & _ & Ht) item language. unfold translations_of.
  eapply table_ok_at_most_one; [exact Ht|].
  intros r r' [Hi Hl] [Hi' Hl']. split; congruence.
Qed.

(** C3. In every database state reached from the empty database by saves and
    deletes, each (item, language) pair has at most one row in
    [ddt_translations], and the state after any further save or delete has
    the property again. *)
Theorem translation_unique_per_item_language db :
  reachable db →
  unique_translation db ∧ ∀ db', step db db' → unique_translation db'.
Proof.
  intros Hr. split.
  - by apply db_ok_unique_translation, reachable_db_ok.
  - intros db' Hstep. apply db_ok_unique_translation.
    eapply step_db_ok; [|exact Hstep]. by apply reachable_db_ok.
Qed.

(** * Deleting a field *)

(** C2. Deleting a stored [Field] removes that row, the items whose [field]
    column holds its key and the translations whose [item] column holds the
    key of one of these items; every other row of the five tables stays, in
    place. *)
Theorem Field_delete_cascade (self : Field) (k : Z) (db : DB) :
  self ∈ ddt_fields db →
  field_id self = Some k →
  ∃ db', Field_delete self db = Ok db' ∧
    ddt_fields db' = filter (λ f, field_id f ≠ Some k) (ddt_fields db) ∧
    ddt_items db' = filter (λ i, item_field i ≠ k) (ddt_items db) ∧
    ddt_translations db' =
      filter (λ t, ¬ Exists (λ i, item_field i = k ∧
                                  item_id i = Some (translation_item t))
                      (ddt_items db))
        (ddt_translations db) ∧
    ddt_languages db' = ddt_languages db ∧
    django_content_type db' = django_content_type db.
Proof.
  intros Hin Hk. unfold Field_delete. rewrite Hk.
  eexists. split; [reflexivity|].
  assert (Hcollected : ∀ x : Z,
    Some x ∈ field_id <$> filter (λ f, field_id f = Some k) (ddt_fields db)
    ↔ x = k).
  { intros x. rewrite list_elem_of_fmap. split.
    - intros (f & Hx & Hf). apply list_elem_of_filter in Hf as [Hf _]. congruence.
    - intros ->. exists self. split; [done|]. by apply list_elem_of_filter. }
  simpl. repeat split.
  - apply list_filter_iff. intros i. by rewrite Hcollected.
  - apply list_filter_iff. intros t.
    rewrite Exists_exists, list_elem_of_fmap.
    split; intros Hn.
    + intros (i & Hi & Hf & Hid). apply Hn. exists i. split; [done|].
      apply list_elem_of_filter. split; [|done]. by apply Hcollected.
    + intros (i & Hid & Hi). apply list_elem_of_filter in Hi as [Hf Hi].
      apply Hcollected in Hf. apply Hn. eauto.
Qed.

(** * Counting missing translations *)

Lemma join_count (db : DB) (self : Field) (ts : list Translation) :
  NoDup (item_id <$> ddt_items db) →
  length
    (filter (λ ti : Translation * Item, translation_text ti.1 = "")
       (filter (λ ti : Translation * Item,
                  column_is (item_field ti.2) (field_id self))
          (t ← ts;
           i ← filter (λ i, item_id i = Some (translation_item t))
                 (ddt_items db);
           [(t, i)]))) =
  length (filter (λ t, translation_of_field db self t ∧
                       translation_text t = "") ts).
Proof.
  intros Hnd. induction ts as [|t ts IH]; [done|].
  rewrite bind_cons, !filter_app, length_app, IH. clear IH.
  rewrite filter_cons.
  pose proof (filter_at_most_one item_id
                (λ i, item_id i = Some (translation_item t)) (ddt_items db) Hnd)
    as Hone.
  destruct (filter_le_1_cases
              (λ i, item_id i = Some (translation_item t)) (ddt_items db))
    as [[Hf Hnone]|(i & Hf & Hi & Hid & Honly)].
  { apply Hone. intros; congruence. }
  - rewrite Hf. simpl.
    destruct (decide _) as [[Hex _]|_]; [|done].
    apply Exists_exists in Hex as (i & Hi & Hid & _). by destruct (Hnone i Hi).
  - rewrite Hf. simpl. rewrite !filter_cons, !filter_nil. simpl.
    destruct (decide (column_is (item_field i) (field_id self))) as [Hc|Hc].
    + rewrite filter_cons. simpl.
      destruct (decide (translation_text t = "")) as [Ht|Ht].
      * rewrite decide_True; [done|]. split; [|done].
        apply Exists_exists. exists i. auto.
      * rewrite decide_False; [done|]. tauto.
    + rewrite filter_nil. simpl. rewrite decide_False; [done|].
      intros [Hex _]. apply Exists_exists in Hex as (i' & Hi' & Hid' & Hf').
      apply Hc. unfold column_is. rewrite Hf'. do 2 f_equal. by apply Honly.
Qed.

(** C4. [count_missing_translations] of a field, an item and a language is
    the number of rows of [ddt_translations] with empty text whose item is a
    stored item of the field, whose item is the item, and whose language is
    the language.  The join behind [item__field] counts a translation once
    because item keys are primary keys. *)
Theorem count_missing_translations_spec (db : DB) (field : Field)
    (item : Item) (language : Language) :
  NoDup (item_id <$> ddt_items db) →
  Field_count_missing_translations field db =
    length (filter (λ t, translation_of_field db field t ∧
                         translation_text t = "")
              (ddt_translations db)) ∧
  Item_count_missing_translations item db =
    length (filter (λ t, item_id item = Some (translation_item t) ∧
                         translation_text t = "")
              (ddt_translations db)) ∧
  Language_count_missing_translations language db =
    length (filter (λ t, language_id language = Some (translation_language t) ∧
                         translation_text t = "")
              (ddt_translations db)).
Proof.
  intros Hnd. split; [|split].
  - unfold Field_count_missing_translations, translations_join_items.
    by apply join_count.
  - unfold Item_count_missing_translations. rewrite list_filter_filter.
    f_equal. apply list_filter_iff. unfold column_is. tauto.
  - unfold Language_count_missing_translations. rewrite list_filter_filter.
    f_equal. apply list_filter_iff. unfold column_is. tauto.
Qed.

(** * Saving a language *)

Section SaveFacts.
Context {A : Type}.
Variable m : model_name.
Variable pk : A → option Z.
Variable with_pk : Z → A → A.
Variable collides : A → A → Prop.
Context `{!RelDecision collides}.
Hypothesis pk_with_pk : ∀ k r, pk (with_pk k r) = Some k.

(** The instance returned by a save is stored, it is the only row under
    its primary key, and the rows under other keys are the ones that were
    there. *)
Lemma Model_save_stored self rows self' rows' :
  Model_save m pk with_pk collides self rows = Ok (self', rows') →
  (self' = self ∨ (pk self = None ∧ ∃ k, self' = with_pk k self)) ∧
  is_Some (pk self') ∧
  self' ∈ rows' ∧
  (∀ r, r ∈ rows' → pk r = pk self' → r = self') ∧
  (∀ r, pk r ≠ pk self' → r ∈ rows' ↔ r ∈ rows).
Proof.
  unfold Model_save. destruct (pk self) as [k|] eqn:Hk.
  - destruct (decide (Exists _ rows)) as [|Hfree]; [done|].
    destruct (decide (Exists _ rows)) as [Hex|Hnew]; intros [= <- <-].
    + rewrite Hk. split; [by left|]. split; [by eexists|]. split; [|split].
      * apply Exists_exists in Hex as (r & Hr & Hrk).
        unfold replace_pk. apply list_elem_of_fmap. exists r.
        by rewrite decide_True.
      * intros r Hr Hrk. unfold replace_pk in Hr.
        apply list_elem_of_fmap in Hr as (x & -> & Hx).
        destruct (decide (pk x = Some k)); [done|]. congruence.
      * intros r Hne. unfold replace_pk. rewrite list_elem_of_fmap. split.
        -- intros (x & -> & Hx). destruct (decide (pk x = Some k)); [|done].
           congruence.
        -- intros Hr. exists r. by rewrite decide_False.
    + rewrite Hk. split; [by left|]. split; [by eexists|]. split; [|split].
      * apply elem_of_app. right. by apply list_elem_of_singleton.
      * intros r Hr Hrk. apply elem_of_app in Hr as [Hr|Hr].
        -- exfalso. apply Hnew, Exists_exists. eauto.
        -- by apply list_elem_of_singleton in Hr.
      * intros r Hne. rewrite elem_of_app, list_elem_of_singleton.
        split; [|by left]. intros [?| ->]; [done|]. congruence.
  - simpl. destruct (decide (Exists _ rows)) as [|Hfree]; [done|].
    intros [= <- <-]. rewrite pk_with_pk.
    split; [right; eauto|]. split; [by eexists|]. split; [|split].
    + apply elem_of_app. right. by apply list_elem_of_singleton.
    + intros r Hr Hrk. apply elem_of_app in Hr as [Hr|Hr].
      * pose proof (max_pk_ge pk _ _ _ Hr Hrk). lia.
      * by apply list_elem_of_singleton in Hr.
    + intros r Hne. rewrite elem_of_app, list_elem_of_singleton.
      split; [|by left]. intros [?| ->]; [done|].
      by rewrite pk_with_pk in Hne.
Qed.
End SaveFacts.

Lemma ascii_upper_idemp c : ascii_upper (ascii_upper c) = ascii_upper c.
Proof. destruct c as [[] [] [] [] [] [] [] []]; reflexivity. Qed.

Lemma upper_idemp s : upper (upper s) = upper s.
Proof.
  induction s as [|c s IH]; [done|]. simpl. by rewrite ascii_upper_idemp, IH.
Qed.

(** C5. [Language.save] returns unless a stored language under another
    primary key has the same name, ISO code (upper-cased) or locale
    identifier.  The instance it saves carries the upper-cased [iso2] and
    [iso3] of the instance it was called on and the same name and locale
    identifier, keeps the primary key if there was one, and is the row stored
    under its primary key in [ddt_languages]; the other rows and the other
    tables are untouched. *)
Theorem Language_save_uppercases (self : Language) (db : DB) :
  ((∀ row, row ∈ ddt_languages db →
      (is_Some (language_id self) ∧ language_id row = language_id self) ∨
      (language_name row ≠ language_name self ∧
       iso2 row ≠ upper (iso2 self) ∧ iso3 row ≠ upper (iso3 self) ∧
       django_language_name row ≠ django_language_name self)) →
   is_Ok (Language_save self db)) ∧
  (∀ self' db', Language_save self db = Ok (self', db') →
     iso2 self' = upper (iso2 self) ∧
     iso3 self' = upper (iso3 self) ∧
     language_name self' = language_name self ∧
     django_language_name self' = django_language_name self ∧
     (is_Some (language_id self) → language_id self' = language_id self) ∧
     is_Some (language_id self') ∧
     self' ∈ ddt_languages db' ∧
     (∀ row, row ∈ ddt_languages db' →
             language_id row = language_id self' → row = self') ∧
     (∀ row, language_id row ≠ language_id self' →
             row ∈ ddt_languages db' ↔ row ∈ ddt_languages db) ∧
     django_content_type db' = django_content_type db ∧
     ddt_fields db' = ddt_fields db ∧
     ddt_items db' = ddt_items db ∧
     ddt_translations db' = ddt_translations db).
Proof.
  split.
  - intros Hfree. unfold Language_save, Model_save. simpl.
    assert (Hno : ∀ row, row ∈ ddt_languages db →
              language_id row ≠ language_id self ∨ language_id self = None →
              ¬ (language_name self = language_name row ∨
                 upper (iso2 self) = iso2 row ∨ upper (iso3 self) = iso3 row ∨
                 django_language_name self = django_language_name row)).
    { intros row Hrow Hpk Hc.
      destruct (Hfree row Hrow) as [[[k Hk] Hsame]|(? & ? & ? & ?)].
      - destruct Hpk as [Hpk|Hpk]; congruence.
      - destruct Hc as [?|[?|[?|?]]]; congruence. }
    destruct (language_id self) as [k|] eqn:Hk.
    + rewrite decide_False.
      * by destruct (decide _).
      * rewrite Exists_exists. intros (row & Hrow & Hne & Hc).
        by apply (Hno row Hrow (or_introl Hne)).
    + simpl. rewrite decide_False; [done|].
      rewrite Exists_exists. intros (row & Hrow & Hc).
      by apply (Hno row Hrow (or_intror eq_refl)).
  - unfold Language_save. intros self' db' H. save_inv H as saved rows.
    apply Model_save_stored in Esave as (Hself & Hpk & Hin & Honly & Hrest);
      [|done].
    simpl in Hself.
    assert (Hcols : iso2 saved = upper (iso2 self) ∧
                    iso3 saved = upper (iso3 self) ∧
                    language_name saved = language_name self ∧
                    django_language_name saved = django_language_name self ∧
                    (is_Some (language_id self) →
                     language_id saved = language_id self)).
    { destruct Hself as [->|[Hnone (k & ->)]]; simpl; repeat split; auto.
      rewrite Hnone. by intros [? ?]. }
    destruct Hcols as (? & ? & ? & ? & ?).
    repeat split; simpl; auto; try apply Hrest; auto.
Qed.

(** * Serializing without a language *)

(** C6. Called with neither [language] nor [request],
    [instance_as_translated_dict] and [all_instances_as_translated_dict]
    raise [TypeError] and return no dict, whatever the instance(s), the depth
    flag and the database. *)
Theorem as_translated_dict_requires_language (db : DB)
    (instance : list (string * pyval))
    (instances : list (list (string * pyval))) (depth : bool) :
  instance_as_translated_dict db instance depth None None =
    Raise (TypeError "You must provide either 'language' or 'request'") ∧
  all_instances_as_translated_dict db instances depth None None =
    Raise (TypeError "You must provide either 'language' or 'request'").
Proof. split; reflexivity. Qed.

(** * The language of the session *)

Lemma str_truthy_true s : s ≠ "" → str_truthy s = true.
Proof. by destruct s. Qed.

Lemma Language_get_by_locale (db : DB) (name : string) :
  table_ok language_id Language_unique (ddt_languages db) →
  (filter (λ l, django_language_name l = name) (ddt_languages db) = [] ∧
   ∀ l, l ∈ ddt_languages db → django_language_name l ≠ name) ∨
  (∃ l, filter (λ l, django_language_name l = name) (ddt_languages db) = [l] ∧
        l ∈ ddt_languages db ∧ django_language_name l = name ∧
        ∀ l', l' ∈ ddt_languages db → django_language_name l' = name → l' = l).
Proof.
  intros Hok. apply filter_le_1_cases.
  eapply table_ok_at_most_one; [exact Hok|].
  intros r r' Hr Hr'. unfold Language_unique. right. right. right. congruence.
Qed.

(** C8. For a language stored in a table that satisfies its unique
    constraints, [update_user_language(request, language)] activates the
    locale identifier of the language and writes it in the session; on the
    updated request [get_language_from_session] returns that language when
    its locale identifier is not the empty string, and [False] when it
    is. *)
Theorem update_then_get_language (db : DB) (request : HttpRequest)
    (language : Language) :
  table_ok language_id Language_unique (ddt_languages db) →
  language ∈ ddt_languages db →
  ∃ request',
    update_user_language db request (Some language) None =
      Ok (django_language_name language, request') ∧
    session request' !! LANGUAGE_SESSION_KEY =
      Some (django_language_name language) ∧
    get_language_from_session db (Some request') =
      Ok (if decide (django_language_name language = "") then PyFalse
          else Lang language).
Proof.
  intros Hok Hin. eexists. split; [reflexivity|]. simpl.
  rewrite lookup_insert_eq. split; [done|].
  destruct (decide (django_language_name language = "")) as [->|Hne];
    [done|].
  rewrite str_truthy_true by done.
  destruct (Language_get_by_locale db (django_language_name language) Hok)
    as [[_ Hnone]|(l & -> & _ & _ & Honly)].
  - by destruct (Hnone language Hin).
  - simpl. by rewrite (Honly language Hin).
Qed.

(** C10. With the stored languages satisfying their unique constraints,
    [get_language_from_session] always returns: [False] when the session
    has no language entry or holds the empty string, [False] when no stored
    language has the stored locale name, and otherwise the one stored
    language that has it. *)
Theorem get_language_from_session_total (db : DB) (request : HttpRequest) :
  table_ok language_id Language_unique (ddt_languages db) →
  ∃ r, get_language_from_session db (Some request) = Ok r ∧
    match session request !! LANGUAGE_SESSION_KEY with
    | None => r = PyFalse
    | Some name =>
        if decide (name = "") then r = PyFalse
        else
          ((∀ l, l ∈ ddt_languages db → django_language_name l ≠ name) →
           r = PyFalse) ∧
          (∀ l, l ∈ ddt_languages db → django_language_name l = name →
                r = Lang l ∧
                ∀ l', l' ∈ ddt_languages db →
                      django_language_name l' = name → l' = l)
    end.
Proof.
  intros Hok. simpl.
  destruct (session request !! LANGUAGE_SESSION_KEY) as [name|]; [|by eexists].
  destruct (decide (name = "")) as [->|Hname]; [by eexists|].
  rewrite str_truthy_true by done.
  destruct (Language_get_by_locale db name Hok)
    as [[-> Hnone]|(l & -> & Hl & Hl_name & Honly)]; simpl.
  - eexists. split; [done|]. split; [done|].
    intros l Hl Hl_name. by destruct (Hnone l Hl).
  - eexists. split; [done|]. split.
    + intros Hnone. by destruct (Hnone l Hl).
    + intros l' Hl' Hname'. rewrite (Honly l' Hl' Hname'). auto.
Qed.

(** * The mixin lookups *)

Lemma lookup_spec_iff {A} (res : result A) (M M' : A → Prop) :
  (∀ r, M r ↔ M' r) → lookup_spec res M → lookup_spec res M'.
Proof.
  intros Hiff [(r & Hres & Hr & Honly)|[Hnf Hnone]].
  - left. exists r. split; [done|]. split; [by apply Hiff|].
    intros r' Hr'. by apply Honly, Hiff.
  - right. split; [done|]. intros r Hr. by apply (Hnone r), Hiff.
Qed.

Lemma lookup_spec_ret {A} (a : A) : lookup_spec (Ok a) (λ r, r = a).
Proof. left. exists a. auto. Qed.

Lemma lookup_spec_bind {A B} (res : result A) (f : A → result B)
    (M1 : A → Prop) (M2 : A → B → Prop) :
  lookup_spec res M1 →
  (∀ a, M1 a → lookup_spec (f a) (M2 a)) →
  lookup_spec (res ≫= f) (λ r, ∃ a, M1 a ∧ M2 a r).
Proof.
  intros [(a & -> & Ha & Honly)|[(m & ->) Hnone]] Hf; simpl.
  - destruct (Hf a Ha) as [(r & Hres & Hr & Honly')|[Hnf Hnone]].
    + left. exists r. split; [done|]. split; [eauto|].
      intros r' (a' & Ha' & Hr'). rewrite (Honly a' Ha') in Hr'. auto.
    + right. split; [done|]. intros r (a' & Ha' & Hr).
      rewrite (Honly a' Ha') in Hr. by eapply Hnone.
  - right. split; [by exists m|]. intros r (a & Ha & _). by eapply Hnone.
Qed.

Lemma lookup_spec_get {A} (m : model_name) (P : A → Prop)
    `{!∀ x, Decision (P x)} (rows : list A) :
  (length (filter P rows) ≤ 1)%nat →
  lookup_spec (objects_get m (filter P rows)) (λ r, r ∈ rows ∧ P r).
Proof.
  intros Hlen.
  destruct (filter_le_1_cases P rows Hlen)
    as [[-> Hnone]|(r & -> & Hr & HP & Honly)].
  - right. split; [by exists m|]. intros r [Hr HP]. by eapply Hnone.
  - left. exists r. split; [done|]. split; [done|].
    intros r' [Hr' HP']. auto.
Qed.

(** The two facts a caller relies on, from [lookup_spec]. *)
Lemma lookup_spec_found_or_not {A} (res : result A) (M : A → Prop) :
  lookup_spec res M →
  (not_found res ↔ ¬ ∃ r, M r) ∧ (∀ r, M r → res = Ok r).
Proof.
  intros [(r & -> & Hr & Honly)|[Hnf Hnone]]; split.
  - split; [intros [m Hm]; discriminate|]. intros Hn. destruct Hn; eauto.
  - intros r' Hr'. by rewrite (Honly r' Hr').
  - split; [|done]. intros _ [r Hr]. by eapply Hnone.
  - intros r Hr. by destruct (Hnone r).
Qed.

Section Lookups.
Variable self : TranslatedModel.
Variable db : DB.
Hypothesis Hok : db_ok db.

Lemma get_content_type_instance_spec :
  lookup_spec (get_content_type_instance self db)
    (matching_content_type self db).
Proof.
  destruct Hok as (Hc & _). unfold get_content_type_instance.
  eapply lookup_spec_iff; [|apply lookup_spec_get].
  - intros c. unfold matching_content_type. simpl. tauto.
  - eapply table_ok_at_most_one; [exact Hc|].
    intros r r' [? ?] [? ?]. split; congruence.
Qed.

Lemma get_translated_field_spec name :
  lookup_spec (get_translated_field self db name)
    (matching_field self db name).
Proof.
  destruct Hok as (_ & Hf & _). unfold get_translated_field.
  eapply lookup_spec_iff;
    [|apply (lookup_spec_bind _ _ (matching_content_type self db)
               (λ c f, f ∈ ddt_fields db ∧
                       (column_is (field_content_type f) (ct_id c) ∧
                        name = Some (field_name f))));
      [apply get_content_type_instance_spec|]].
  - intros f. unfold matching_field, column_is. simpl. naive_solver.
  - intros c _. apply lookup_spec_get.
    eapply table_ok_at_most_one; [exact Hf|].
    unfold column_is. intros r r' [? ?] [? ?]. split; congruence.
Qed.

Lemma designated_field_spec field name :
  lookup_spec
    (match field with
     | None => get_translated_field self db name
     | Some f => Ok f
     end)
    (designated_field self db field name).
Proof.
  destruct field as [f|]; simpl.
  - apply lookup_spec_ret.
  - apply get_translated_field_spec.
Qed.

Lemma get_translated_item_spec field name :
  lookup_spec (get_translated_item self db field name)
    (matching_item self db field name).
Proof.
  destruct Hok as (_ & _ & Hi & _). unfold get_translated_item.
  eapply lookup_spec_iff;
    [|apply (lookup_spec_bind _ _ (designated_field self db field name)
               (λ f i, i ∈ ddt_items db ∧
                       (column_is (item_object_id i) (self_id self) ∧
                        column_is (item_field i) (field_id f))));
      [apply designated_field_spec|]].
  - intros i. unfold matching_item, column_is. simpl. naive_solver.
  - intros f _. apply lookup_spec_get.
    eapply table_ok_at_most_one; [exact Hi|].
    unfold column_is. intros r r' [? ?] [? ?]. split; congruence.
Qed.

Lemma designated_language_spec language lang_id :
  lookup_spec
    (match language with
     | None => Language_objects_get_pk db lang_id
     | Some l => Ok l
     end)
    (designated_language db language lang_id).
Proof.
  destruct Hok as (_ & _ & _ & [Hnd _] & _).
  destruct language as [l|]; simpl.
  - apply lookup_spec_ret.
  - unfold Language_objects_get_pk. apply lookup_spec_get.
    apply (filter_at_most_one language_id); [done|].
    unfold pk_is. intros r r' _ _ [_ ?] [_ ?]. congruence.
Qed.

Lemma get_translation_spec field name language lang_id :
  lookup_spec (get_translation self db field name language lang_id)
    (matching_translation self db field name language lang_id).
Proof.
  destruct Hok as (_ & _ & _ & _ & Ht). unfold get_translation.
  eapply lookup_spec_iff;
    [|apply (lookup_spec_bind _ _ (matching_item self db field name)
               (λ i t, ∃ l, designated_language db language lang_id l ∧
                  (t ∈ ddt_translations db ∧
                   (column_is (translation_item t) (item_id i) ∧
                    column_is (translation_language t) (language_id l)))));
      [apply get_translated_item_spec|]].
  - intros t. unfold matching_translation, column_is. simpl. naive_solver.
  - intros i _.
    apply (lookup_spec_bind _ _ (designated_language db language lang_id)
             (λ l t, t ∈ ddt_translations db ∧
                (column_is (translation_item t) (item_id i) ∧
                 column_is (translation_language t) (language_id l))));
      [apply designated_language_spec|].
    intros l _. unfold Translation_objects_get. apply lookup_spec_get.
    eapply table_ok_at_most_one; [exact Ht|].
    unfold column_is. intros r r' [? ?] [? ?]. split; congruence.
Qed.
End Lookups.

(** C7. In a database that satisfies its constraints, each of
    [get_translated_field], [get_translated_item] and [get_translation]
    fails with a not-found error exactly when no row matches the arguments,
    and returns the matching row when there is one. *)
Theorem mixin_lookups_found_or_not (self : TranslatedModel) (db : DB)
    (field : option Field) (name : option string)
    (language : option Language) (lang_id : option Z) :
  db_ok db →
  (not_found (get_translated_field self db name) ↔
     ¬ ∃ f, matching_field self db name f) ∧
  (∀ f, matching_field self db name f →
        get_translated_field self db name = Ok f) ∧
  (not_found (get_translated_item self db field name) ↔
     ¬ ∃ i, matching_item self db field name i) ∧
  (∀ i, matching_item self db field name i →
        get_translated_item self db field name = Ok i) ∧
  (not_found (get_translation self db field name language lang_id) ↔
     ¬ ∃ t, matching_translation self db field name language lang_id t) ∧
  (∀ t, matching_translation self db field name language lang_id t →
        get_translation self db field name language lang_id = Ok t).
Proof.
  intros Hok.
  pose proof (lookup_spec_found_or_not _ _ (get_translated_field_spec self db Hok name))
    as [? ?].
  pose proof (lookup_spec_found_or_not _ _
                (get_translated_item_spec self db Hok field name)) as [? ?].
  pose proof (lookup_spec_found_or_not _ _
                (get_translation_spec self db Hok field name language lang_id))
    as [? ?].
  auto 10.
Qed.

(** * Dicts *)

Section Dict.
Context {V : Type}.
Implicit Types (d : list (string * V)) (k : string) (v : V).

Lemma dict_get_set_eq k v d : dict_get k (dict_set k v d) = Some v.
Proof.
  induction d as [|[k' v'] d IH]; simpl.
  - by rewrite decide_True.
  - destruct (decide (k' = k)) as [->|Hne]; simpl.
    + by rewrite decide_True.
    + by rewrite decide_False.
Qed.

Lemma dict_get_set_ne k k' v d :
  k ≠ k' → dict_get k' (dict_set k v d) = dict_get k' d.
Proof.
  intros Hne. induction d as [|[k0 v0] d IH]; simpl.
  - by rewrite decide_False.
  - destruct (decide (k0 = k)) as [->|Hne0]; simpl.
    + by rewrite !decide_False.
    + destruct (decide (k0 = k')); [done|]. apply IH.
Qed.

Lemma dict_get_pop k k' d :
  dict_get k' (dict_pop k d) =
  if decide (k' = k) then None else dict_get k' d.
Proof.
  induction d as [|[k0 v0] d IH]; simpl.
  - by destruct (decide _).
  - destruct (decide (k0 = k)) as [->|Hne0]; simpl.
    + rewrite IH. destruct (decide (k' = k)) as [->|Hne]; [done|].
      by rewrite decide_False.
    + rewrite IH. destruct (decide (k' = k)) as [->|Hne].
      * by rewrite decide_False.
      * done.
Qed.
End Dict.

(** Distinct primary keys and a key that determines the primary key give
    distinct keys. *)
Lemma NoDup_key {A K} (pk : A → option Z) (key : A → K) (rows : list A) :
  NoDup (pk <$> rows) →
  (∀ r r', r ∈ rows → r' ∈ rows → key r = key r' → pk r = pk r') →
  NoDup (key <$> rows).
Proof.
  induction rows as [|x rows IH]; intros Hnd Hkey; [constructor|].
  simpl in *. apply NoDup_cons in Hnd as [Hx Hnd]. apply NoDup_cons. split.
  - intros Hin. apply Hx. apply list_elem_of_fmap in Hin as (r & Hr & Hin).
    apply list_elem_of_fmap. exists r. split; [|done].
    apply Hkey; [set_solver|set_solver|done].
  - apply IH; [done|]. intros r r' Hr Hr'. apply Hkey; set_solver.
Qed.

(** * [dict_with_translations] *)

Lemma translated_fields_names (self : TranslatedModel) (db : DB) fields :
  db_ok db →
  get_translated_fields self db = Ok fields →
  NoDup (field_name <$> fields).
Proof.
  intros (_ & Hf & _). unfold get_translated_fields.
  destruct (get_content_type_instance self db) as [c|]; [|done].
  simpl. intros [= <-].
  pose proof (table_ok_filter _ _
                (λ f, column_is (field_content_type f) (ct_id c)) _ Hf)
    as [Hnd Hu].
  apply (NoDup_key field_id); [done|].
  intros r r' Hr Hr' Hname. apply Hu; [done|done|].
  apply list_elem_of_filter in Hr as [Hr _], Hr' as [Hr' _].
  unfold column_is in *. split; congruence.
Qed.

Lemma translations_loop_spec (self : TranslatedModel) (db : DB)
    (language : Language) (fields : list Field)
    (field_dict d : list (string * pyval)) :
  NoDup (field_name <$> fields) →
  translations_loop self db language fields field_dict = Ok d →
  (∀ f, f ∈ fields →
     ∃ t, get_translation self db (Some f) None (Some language) None = Ok t ∧
          dict_get (field_name f) d = Some (PStr (translation_text t))) ∧
  (∀ k, k ∉ field_name <$> fields → dict_get k d = dict_get k field_dict).
Proof.
  revert field_dict. induction fields as [|f fields IH]; intros acc Hnd Hloop.
  - simpl in Hloop. injection Hloop as <-. split; [|done].
    intros f Hf. inversion Hf.
  - simpl in Hnd, Hloop. apply NoDup_cons in Hnd as [Hf Hnd].
    destruct (get_translation self db (Some f) None (Some language) None)
      as [t|] eqn:Ht; [|done].
    simpl in Hloop. destruct (IH _ Hnd Hloop) as [Hfields Hrest]. split.
    + intros f' Hf'. apply elem_of_cons in Hf' as [->|Hf']; [|auto].
      exists t. split; [done|].
      rewrite (Hrest _ Hf). apply dict_get_set_eq.
    + intros k Hk. simpl in Hk. apply not_elem_of_cons in Hk as [Hne Hk].
      rewrite (Hrest _ Hk). by apply dict_get_set_ne.
Qed.

Lemma translations_loop_returns self db language fields acc :
  Forall (λ f, is_Ok (get_translation self db (Some f) None (Some language)
                        None)) fields →
  is_Ok (translations_loop self db language fields acc).
Proof.
  revert acc. induction fields as [|f fields IH]; intros acc Hall; [done|].
  apply Forall_cons in Hall as [Hf Hall]. simpl.
  destruct (get_translation _ _ _ _ _ _); [|done]. simpl. by apply IH.
Qed.

(** [dict_with_translations] returns a dict as soon as the language is
    found, the content type of the instance exists and every translated
    field of the instance has its translation. *)
Lemma dict_with_translations_returns self db language lang_id l fields :
  match language with
  | None => Language_objects_get_pk db lang_id
  | Some l' => Ok l'
  end = Ok l →
  get_translated_fields self db = Ok fields →
  Forall (λ f, is_Ok (get_translation self db (Some f) None (Some l) None))
    fields →
  is_Ok (dict_with_translations self db language lang_id).
Proof.
  intros Hl Hfields Hall. unfold dict_with_translations.
  rewrite Hl. simpl. rewrite Hfields. simpl.
  by apply translations_loop_returns.
Qed.

(** C9 (amended). [dict_with_translations] returns a dict as soon as the
    language is found and every translated field of the instance has its
    translation.  In the dict it returns, each translated field name maps to
    the text of the instance's translation of that field in the language, and
    every other key holds what [self.__dict__] holds under it, except
    [_state], which is left out. *)
Theorem dict_with_translations_spec (self : TranslatedModel) (db : DB)
    (language : option Language) (lang_id : option Z) :
  db_ok db →
  (∀ l fields,
     designated_language db language lang_id l →
     get_translated_fields self db = Ok fields →
     Forall (λ f, is_Ok (get_translation self db (Some f) None (Some l) None))
       fields →
     is_Ok (dict_with_translations self db language lang_id)) ∧
  (∀ d, dict_with_translations self db language lang_id = Ok d →
     ∃ l fields,
       designated_language db language lang_id l ∧
       get_translated_fields self db = Ok fields ∧
       (∀ f, f ∈ fields →
          ∃ t, get_translation self db (Some f) None (Some l) None = Ok t ∧
               dict_get (field_name f) d = Some (PStr (translation_text t))) ∧
       (∀ k, k ∉ field_name <$> fields →
          dict_get k d =
          if decide (k = "_state") then None
          else dict_get k (self_dict self))).
Proof.
  intros Hok. split.
  - intros l fields Hl Hfields Hall.
    eapply dict_with_translations_returns; [|exact Hfields|exact Hall].
    destruct (designated_language_spec db Hok language lang_id)
      as [(l' & -> & _ & Honly)|[_ Hnone]].
    + by rewrite (Honly l Hl).
    + by destruct (Hnone l).
  - unfold dict_with_translations.
    destruct (designated_language_spec db Hok language lang_id)
      as [(l & -> & Hl & _)|[(m & ->) _]]; [|done].
    simpl. destruct (get_translated_fields self db) as [fields|] eqn:Hfields;
      [|done].
    simpl. intros d Hloop. exists l, fields. split; [done|]. split; [done|].
    apply translations_loop_spec in Hloop as [Hf Hrest];
      [|by eapply translated_fields_names].
    split; [done|]. intros k Hk. rewrite (Hrest k Hk). apply dict_get_pop.
Qed.

(** * [instance_as_translated_dict] *)

Lemma as_translated_dict_unfold db language depth fields :
  as_translated_dict db language depth (PModel fields) =
  fields_loop (new_value db language depth) fields [].
Proof. reflexivity. Qed.

Lemma objects_get_Ok {A} (m : model_name) (P : A → Prop)
    `{!∀ x, Decision (P x)} (rows : list A) r :
  objects_get m (filter P rows) = Ok r → r ∈ rows ∧ P r.
Proof.
  destruct (filter P rows) as [|x [|y l]] eqn:Hf; simpl; try done.
  intros [= <-].
  assert (Hx : x ∈ filter P rows) by (rewrite Hf; by apply list_elem_of_singleton).
  apply list_elem_of_filter in Hx. tauto.
Qed.

Lemma fields_loop_spec (conv : pyval → result pyval)
    (fields : list (string * pyval)) (acc d : list (string * pyval)) :
  NoDup fields.*1 →
  fields_loop conv fields acc = Ok d →
  (∀ name value, (name, value) ∈ fields →
     match value with
     | PNone => dict_get name d = dict_get name acc
     | _ => ∃ v, conv value = Ok v ∧ dict_get name d = Some v
     end) ∧
  (∀ k, k ∉ fields.*1 → dict_get k d = dict_get k acc).
Proof.
  revert acc. induction fields as [|[name value] fields IH];
    intros acc Hnd Hloop.
  - simpl in Hloop. injection Hloop as <-. split; [|done].
    intros name value Hin. inversion Hin.
  - simpl in Hnd. apply NoDup_cons in Hnd as [Hname Hnd].
    assert (Hstep : ∃ acc',
      fields_loop conv fields acc' = Ok d ∧
      match value with
      | PNone => acc' = acc
      | _ => ∃ v, conv value = Ok v ∧ acc' = dict_set name v acc
      end).
    { destruct value; simpl in Hloop;
        try (destruct (conv _) as [v|] eqn:Hv; [|done]; simpl in Hloop);
        eauto. }
    destruct Hstep as (acc' & Hloop' & Hacc').
    destruct (IH _ Hnd Hloop') as [Hfields Hrest]. split.
    + intros name' value' Hin. apply elem_of_cons in Hin as [[= -> ->]|Hin].
      2:{ specialize (Hfields name' value' Hin).
          assert (Hne : name ≠ name').
          { intros ->. apply Hname. apply list_elem_of_fmap.
            by exists (name', value'). }
          destruct value'; try done. rewrite Hfields.
          destruct value; try by subst acc'.
          all: destruct Hacc' as (v & Hv & ->); by apply dict_get_set_ne. }
      rewrite (Hrest _ Hname).
      destruct value; try by subst acc'.
      all: destruct Hacc' as (v & Hv & ->); exists v; split; [done|];
           apply dict_get_set_eq.
    + intros k Hk. simpl in Hk. apply not_elem_of_cons in Hk as [Hne Hk].
      rewrite (Hrest _ Hk).
      destruct value; try by subst acc'.
      all: destruct Hacc' as (v & Hv & ->); by apply dict_get_set_ne.
Qed.

(** Induction on a value, with the values below a model instance or a
    dict. *)
Lemma pyval_nested_ind (P : pyval → Prop) :
  P PNone → (∀ b, P (PBool b)) → (∀ n, P (PInt n)) → (∀ s, P (PStr s)) →
  (∀ tag, P (PObject tag)) → P PState → (∀ item, P (PItem item)) →
  (∀ fields, Forall (λ nv, P nv.2) fields → P (PModel fields)) →
  (∀ file, P (PFieldFile file)) → (∀ file, P (PImageFieldFile file)) →
  (∀ d, Forall (λ nv, P nv.2) d → P (PDict d)) →
  ∀ v, P v.
Proof.
  intros HNone HBool HInt HStr HObject HState HItem HModel HFile HImage HDict.
  fix IH 1. intros [ |b|n|s|tag| |item|fields|file|file|d].
  - apply HNone.
  - apply HBool.
  - apply HInt.
  - apply HStr.
  - apply HObject.
  - apply HState.
  - apply HItem.
  - apply HModel. induction fields as [|[name v] fields IHfields];
      constructor; [apply IH|apply IHfields].
  - apply HFile.
  - apply HImage.
  - apply HDict. induction d as [|[name v] d IHd];
      constructor; [apply IH|apply IHd].
Qed.

Lemma fields_loop_returns (conv : pyval → result pyval)
    (fields acc : list (string * pyval)) :
  Forall (λ nv, nv.2 = PNone ∨ is_Ok (conv nv.2)) fields →
  is_Ok (fields_loop conv fields acc).
Proof.
  revert acc. induction fields as [|[name value] fields IH]; intros acc Hall;
    [done|].
  apply Forall_cons in Hall as [Hvalue Hall]. simpl in Hvalue.
  destruct Hvalue as [->|Hvalue]; [by apply IH|].
  destruct value; simpl; try by apply IH.
  all: destruct (conv _); [by apply IH|done].
Qed.

Lemma translations_exist_model db language fields :
  translations_exist db language true (PModel fields) ↔
  Forall (λ nv, translations_exist db language true nv.2) fields.
Proof.
  simpl. induction fields as [|[name v] fields IH]; simpl.
  - split; [constructor|done].
  - rewrite Forall_cons, IH. done.
Qed.

Lemma new_value_returns db language value depth :
  translations_exist db language depth value →
  is_Ok (new_value db language depth value).
Proof.
  revert depth. induction value as
    [ |b|n|s|tag| |item|fields IH|file|file|d _] using pyval_nested_ind;
    intros depth Hex; simpl; try done.
  - simpl in Hex. by destruct (Translation_objects_get _ _ _).
  - destruct depth; [|done].
    apply translations_exist_model in Hex.
    assert (Hloop : is_Ok (fields_loop (new_value db language true) fields [])).
    { apply fields_loop_returns. apply Forall_forall. intros nv Hnv.
      rewrite Forall_forall in IH, Hex. right. apply IH; auto. }
    change (as_translated_dict db language true (PModel fields))
      with (fields_loop (new_value db language true) fields []).
    by destruct (fields_loop _ fields []).
  - by destruct (file_truthy file).
  - by destruct (file_truthy file).
Qed.

(** [instance_as_translated_dict] returns a dict as soon as the items it
    meets have their translation in the language. *)
Lemma instance_as_translated_dict_returns db instance depth language request :
  Forall (λ nv, translations_exist db language depth nv.2) instance →
  is_Ok (instance_as_translated_dict db instance depth (Some language) request).
Proof.
  intros Hall.
  assert (Hloop : is_Ok (fields_loop (new_value db language depth) instance [])).
  { apply fields_loop_returns. eapply Forall_impl; [exact Hall|].
    intros nv Hnv. right. by apply new_value_returns. }
  destruct request; exact Hloop.
Qed.

(** C1 (amended). [instance_as_translated_dict] returns a dict as soon as
    the items it meets have their translation in the language.  The dict it
    returns has, for each field: no entry when the value is [None]; the text
    of the item's translation in the language when the value is an [Item];
    the dict of the related instance when the value is a model instance and
    [depth] is on, the instance itself when [depth] is off; the
    {name, url, path} dict when the value is a file with a name, the empty
    string when it is a file without one; the value itself otherwise.  It has
    no other entry. *)
Theorem instance_as_translated_dict_cases (db : DB)
    (instance : list (string * pyval)) (depth : bool)
    (language : LanguageOrFalse) (request : option HttpRequest) :
  NoDup instance.*1 →
  (Forall (λ nv, translations_exist db language depth nv.2) instance →
   is_Ok (instance_as_translated_dict db instance depth (Some language)
            request)) ∧
  (∀ d, instance_as_translated_dict db instance depth (Some language) request
          = Ok d →
     (∀ name value, (name, value) ∈ instance →
        entry_as_coded db language depth value (dict_get name d)) ∧
     (∀ k, k ∉ instance.*1 → dict_get k d = None)).
Proof.
  intros Hnd. split; [apply instance_as_translated_dict_returns|].
  intros d Hd.
  assert (Hloop : fields_loop (new_value db language depth) instance [] = Ok d).
  { destruct request; exact Hd. }
  clear Hd. apply fields_loop_spec in Hloop as [Hfields Hrest]; [|done].
  split; [|exact Hrest].
  intros name value Hin. specialize (Hfields name value Hin).
  destruct value; simpl in *;
    try (destruct Hfields as (v & [= <-] & ->); done); try done.
  - destruct Hfields as (v & Hv & ->).
    destruct (Translation_objects_get db (item_id item)
                (language_lookup_value language)) as [t|] eqn:Ht; [|done].
    injection Hv as <-. exists t. split; [|done].
    unfold Translation_objects_get in Ht.
    apply objects_get_Ok in Ht as (Hin' & Hi & Hl). by split.
  - destruct Hfields as (v & Hv & ->). destruct depth.
    + destruct (fields_loop _ fields []) as [d'|] eqn:Hd'; [|done].
      injection Hv as <-. by exists d'.
    + by injection Hv as <-.
  - destruct Hfields as (v & Hv & ->). by destruct (file_truthy file);
      injection Hv as <-.
  - destruct Hfields as (v & Hv & ->). by destruct (file_truthy file);
      injection Hv as <-.
Qed.

(** * The sample database *)

(** The constraints of a table, in a form that can be computed. *)
Lemma table_ok_Forall {A} (pk : A → option Z) (collides : A → A → Prop)
    (rows : list A) :
  NoDup (pk <$> rows) →
  Forall (λ r, Forall (λ r', collides r r' → pk r = pk r') rows) rows →
  table_ok pk collides rows.
Proof.
  intros Hnd Hall. split; [done|]. intros r r' Hr Hr'.
  rewrite Forall_forall in Hall. specialize (Hall r Hr).
  rewrite Forall_forall in Hall. by apply Hall.
Qed.

Lemma sample_db_ok : db_ok Sample.db.
Proof.
  refine (conj _ (conj _ (conj _ (conj _ _))));
    apply table_ok_Forall; compute_done.
Qed.

Lemma sample_db2_reachable : reachable Sample.db2.
Proof.
  apply (reachable_step Sample.db1).
  - apply (reachable_step empty_db); [apply reachable_empty|].
    by apply (step_Translation_save
                {| translation_id := None; translation_language := 1;
                   translation_item := 10; translation_text := "Chaise" |}
                (Sample.translation 1 1 10 "Chaise")).
  - by apply (step_Translation_save
                {| translation_id := None; translation_language := 2;
                   translation_item := 10; translation_text := "Chair" |}
                (Sample.translation 2 2 10 "Chair")).
Qed.

(** The database refuses a second translation of an item in a language. *)
Example second_translation_refused :
  Translation_save
    {| translation_id := None; translation_language := 1;
       translation_item := 10; translation_text := "Siege" |} Sample.db
  = Raise (IntegrityError MTranslation).
Proof. reflexivity. Qed.

(** * Witnesses and counterexamples *)

Lemma instance_as_translated_dict_cases_witness :
  NoDup Sample.chair_fields.*1 ∧
  instance_as_translated_dict Sample.db Sample.chair_fields true
    (Some (Lang Sample.english)) None = Ok Sample.chair_translated ∧
  (∀ name value, (name, value) ∈ Sample.chair_fields →
     entry_as_coded Sample.db (Lang Sample.english) true value
       (dict_get name Sample.chair_translated)) ∧
  (∀ k, k ∉ Sample.chair_fields.*1 →
     dict_get k Sample.chair_translated = None).
Proof.
  assert (Hnd : NoDup Sample.chair_fields.*1) by compute_done.
  split; [exact Hnd|]. split; [reflexivity|].
  exact (proj2 (instance_as_translated_dict_cases Sample.db
                  Sample.chair_fields true (Lang Sample.english) None Hnd)
           Sample.chair_translated eq_refl).
Defined.

(** C1, as stated, fails on the sample product: its [picture] field holds
    no file and becomes the empty string, not a {name, url, path} dict, and
    its [discount] field is [None] and gets no entry instead of being passed
    through. *)
Lemma instance_as_translated_dict_not_as_specified :
  instance_as_translated_dict Sample.db Sample.chair_fields true
    (Some (Lang Sample.english)) None = Ok Sample.chair_translated ∧
  (("picture", PImageFieldFile Sample.no_picture) ∈ Sample.chair_fields ∧
   dict_get "picture" Sample.chair_translated = Some (PStr "") ∧
   ¬ entry_as_specified Sample.db (Lang Sample.english) true
       (PImageFieldFile Sample.no_picture)
       (dict_get "picture" Sample.chair_translated)) ∧
  (("discount", PNone) ∈ Sample.chair_fields ∧
   dict_get "discount" Sample.chair_translated = None ∧
   ¬ entry_as_specified Sample.db (Lang Sample.english) true PNone
       (dict_get "discount" Sample.chair_translated)).
Proof.
  split; [reflexivity|]. split.
  - split; [unfold Sample.chair_fields; repeat constructor|].
    split; [reflexivity|]. intros H. discriminate H.
  - split; [unfold Sample.chair_fields; repeat constructor|].
    split; [reflexivity|]. intros H. discriminate H.
Qed.

Lemma Field_delete_cascade_witness :
  Sample.name_field ∈ ddt_fields Sample.db ∧
  field_id Sample.name_field = Some 1 ∧
  ∃ db', Field_delete Sample.name_field Sample.db = Ok db' ∧
    ddt_fields db' = filter (λ f, field_id f ≠ Some 1) (ddt_fields Sample.db) ∧
    ddt_items db' = filter (λ i, item_field i ≠ 1) (ddt_items Sample.db) ∧
    ddt_translations db' =
      filter (λ t, ¬ Exists (λ i, item_field i = 1 ∧
                                  item_id i = Some (translation_item t))
                      (ddt_items Sample.db))
        (ddt_translations Sample.db) ∧
    ddt_languages db' = ddt_languages Sample.db ∧
    django_content_type db' = django_content_type Sample.db.
Proof.
  assert (Hin : Sample.name_field ∈ ddt_fields Sample.db) by compute_done.
  split; [exact Hin|]. split; [reflexivity|].
  exact (Field_delete_cascade Sample.name_field 1 Sample.db Hin eq_refl).
Defined.

Lemma translation_unique_per_item_language_witness :
  reachable Sample.db2 ∧
  unique_translation Sample.db2 ∧
  ∀ db', step Sample.db2 db' → unique_translation db'.
Proof.
  split; [exact sample_db2_reachable|].
  exact (translation_unique_per_item_language Sample.db2 sample_db2_reachable).
Defined.

Lemma count_missing_translations_spec_witness :
  NoDup (item_id <$> ddt_items Sample.db) ∧
  Field_count_missing_translations Sample.name_field Sample.db =
    length (filter (λ t, translation_of_field Sample.db Sample.name_field t ∧
                         translation_text t = "")
              (ddt_translations Sample.db)) ∧
  Item_count_missing_translations Sample.chair_description Sample.db =
    length (filter (λ t, item_id Sample.chair_description =
                           Some (translation_item t) ∧
                         translation_text t = "")
              (ddt_translations Sample.db)) ∧
  Language_count_missing_translations Sample.french Sample.db =
    length (filter (λ t, language_id Sample.french =
                           Some (translation_language t) ∧
                         translation_text t = "")
              (ddt_translations Sample.db)).
Proof.
  assert (Hnd : NoDup (item_id <$> ddt_items Sample.db)) by compute_done.
  split; [exact Hnd|].
  exact (count_missing_translations_spec Sample.db Sample.name_field
           Sample.chair_description Sample.french Hnd).
Defined.

(** The three counts on the sample database. *)
Example count_missing_translations_sample :
  Field_count_missing_translations Sample.name_field Sample.db = 1%nat ∧
  Item_count_missing_translations Sample.chair_description Sample.db = 1%nat ∧
  Language_count_missing_translations Sample.french Sample.db = 2%nat.
Proof. repeat split. Qed.

Lemma Language_save_uppercases_witness :
  Language_save Sample.spanish_typed Sample.db
    = Ok (Sample.spanish_saved,
          set_languages (ddt_languages Sample.db ++ [Sample.spanish_saved])
            Sample.db) ∧
  iso2 Sample.spanish_saved = upper (iso2 Sample.spanish_typed) ∧
  iso3 Sample.spanish_saved = upper (iso3 Sample.spanish_typed) ∧
  language_name Sample.spanish_saved = language_name Sample.spanish_typed ∧
  django_language_name Sample.spanish_saved
    = django_language_name Sample.spanish_typed.
Proof.
  split; [reflexivity|].
  pose proof (proj2 (Language_save_uppercases Sample.spanish_typed Sample.db)
                Sample.spanish_saved
                (set_languages
                   (ddt_languages Sample.db ++ [Sample.spanish_saved])
                   Sample.db) eq_refl) as (H2 & H3 & Hn & Hl & _).
  exact (conj H2 (conj H3 (conj Hn Hl))).
Defined.

(** A language whose ISO code is taken, whatever the case it is typed in,
    is refused. *)
Example Language_save_collision :
  Language_save
    {| language_id := None; language_name := "Francais"; iso2 := "fr";
       iso3 := "fre"; django_language_name := "fr-FR" |} Sample.db
  = Raise (IntegrityError MLanguage).
Proof. reflexivity. Qed.

Lemma mixin_lookups_found_or_not_witness :
  db_ok Sample.db ∧
  (not_found (get_translated_field Sample.chair Sample.db (Some "name")) ↔
     ¬ ∃ f, matching_field Sample.chair Sample.db (Some "name") f) ∧
  (∀ t, matching_translation Sample.chair Sample.db None (Some "name") None
          (Some 2) t →
        get_translation Sample.chair Sample.db None (Some "name") None (Some 2)
          = Ok t).
Proof.
  split; [exact sample_db_ok|].
  pose proof (mixin_lookups_found_or_not Sample.chair Sample.db None
                (Some "name") None (Some 2) sample_db_ok)
    as (Hf & _ & _ & _ & _ & Ht).
  exact (conj Hf Ht).
Defined.

(** The lookups on the sample database: a translation that is there, a
    field name that is not. *)
Example get_translation_sample :
  get_translation Sample.chair Sample.db None (Some "name") None (Some 2)
    = Ok (Sample.translation 101 2 10 "Chair") ∧
  get_translation Sample.chair Sample.db None (Some "colour") None (Some 2)
    = Raise (DoesNotExist MField) ∧
  get_translation Sample.chair Sample.db None (Some "name") None (Some 9)
    = Raise (DoesNotExist MLanguage).
Proof. repeat split. Qed.

Lemma update_then_get_language_witness :
  table_ok language_id Language_unique (ddt_languages Sample.db) ∧
  Sample.english ∈ ddt_languages Sample.db ∧
  ∃ request',
    update_user_language Sample.db Sample.request (Some Sample.english) None =
      Ok ("en", request') ∧
    session request' !! LANGUAGE_SESSION_KEY = Some "en" ∧
    get_language_from_session Sample.db (Some request')
      = Ok (Lang Sample.english).
Proof.
  assert (Hok : table_ok language_id Language_unique (ddt_languages Sample.db))
    by (apply table_ok_Forall; compute_done).
  assert (Hin : Sample.english ∈ ddt_languages Sample.db) by compute_done.
  split; [exact Hok|]. split; [exact Hin|].
  exact (update_then_get_language Sample.db Sample.request Sample.english
           Hok Hin).
Defined.

Lemma unnamed_locale_db_reachable : reachable Sample.unnamed_locale_db.
Proof.
  apply (reachable_step empty_db); [apply reachable_empty|].
  by apply (step_Language_save Sample.unnamed_locale_typed
              Sample.unnamed_locale).
Qed.

(** C8, as stated, fails for a language saved with an empty locale
    identifier: the row is stored in a state reached from the empty
    database by one save, [update_user_language] writes the empty string in
    the session, and [get_language_from_session] reads an empty string as no
    selection and returns [False], not the language. *)
Example empty_locale_is_no_selection :
  reachable Sample.unnamed_locale_db ∧
  table_ok language_id Language_unique
    (ddt_languages Sample.unnamed_locale_db) ∧
  Sample.unnamed_locale ∈ ddt_languages Sample.unnamed_locale_db ∧
  ∃ request',
    update_user_language Sample.unnamed_locale_db Sample.request
      (Some Sample.unnamed_locale) None = Ok ("", request') ∧
    session request' !! LANGUAGE_SESSION_KEY = Some "" ∧
    get_language_from_session Sample.unnamed_locale_db (Some request')
      = Ok PyFalse ∧
    get_language_from_session Sample.unnamed_locale_db (Some request')
      ≠ Ok (Lang Sample.unnamed_locale).
Proof.
  split; [exact unnamed_locale_db_reachable|].
  split; [apply table_ok_Forall; compute_done|].
  split; [compute_done|].
  eexists. split; [reflexivity|]. split; [reflexivity|].
  split; [reflexivity|]. discriminate.
Qed.

Lemma dict_with_translations_spec_witness :
  db_ok Sample.db ∧
  dict_with_translations Sample.chair Sample.db (Some Sample.english) None
    = Ok Sample.chair_dict ∧
  ∃ l fields,
    designated_language Sample.db (Some Sample.english) None l ∧
    get_translated_fields Sample.chair Sample.db = Ok fields ∧
    (∀ f, f ∈ fields →
       ∃ t, get_translation Sample.chair Sample.db (Some f) None (Some l) None
              = Ok t ∧
            dict_get (field_name f) Sample.chair_dict
              = Some (PStr (translation_text t))) ∧
    (∀ k, k ∉ field_name <$> fields →
       dict_get k Sample.chair_dict =
       if decide (k = "_state") then None
       else dict_get k (self_dict Sample.chair)).
Proof.
  split; [exact sample_db_ok|]. split; [reflexivity|].
  exact (proj2 (dict_with_translations_spec Sample.chair Sample.db
                  (Some Sample.english) None sample_db_ok)
           Sample.chair_dict eq_refl).
Defined.

(** C9, as stated, fails on the sample product: [_state] is an attribute of
    the instance, it is not a translated field, and the dict returned does
    not have it. *)
Lemma dict_with_translations_drops_state :
  db_ok Sample.db ∧
  dict_with_translations Sample.chair Sample.db (Some Sample.english) None
    = Ok Sample.chair_dict ∧
  get_translated_fields Sample.chair Sample.db
    = Ok [Sample.name_field; Sample.description_field] ∧
  dict_get "_state" (self_dict Sample.chair) = Some PState ∧
  dict_get "_state" Sample.chair_dict = None ∧
  ¬ frame_as_specified Sample.chair
      [Sample.name_field; Sample.description_field] Sample.chair_dict.
Proof.
  split; [exact sample_db_ok|]. do 4 (split; [reflexivity|]).
  intros Hframe.
  assert (Hnot : "_state" ∉ field_name <$>
                   [Sample.name_field; Sample.description_field])
    by compute_done.
  specialize (Hframe "_state" PState eq_refl Hnot). discriminate Hframe.
Qed.

Lemma get_language_from_session_total_witness :
  table_ok language_id Language_unique (ddt_languages Sample.db) ∧
  ∃ r, get_language_from_session Sample.db (Some Sample.french_request)
         = Ok r ∧
    match session Sample.french_request !! LANGUAGE_SESSION_KEY with
    | None => r = PyFalse
    | Some name =>
        if decide (name = "") then r = PyFalse
        else
          ((∀ l, l ∈ ddt_languages Sample.db →
                 django_language_name l ≠ name) →
           r = PyFalse) ∧
          (∀ l, l ∈ ddt_languages Sample.db → django_language_name l = name →
                r = Lang l ∧
                ∀ l', l' ∈ ddt_languages Sample.db →
                      django_language_name l' = name → l' = l)
    end.
Proof.
  assert (Hok : table_ok language_id Language_unique (ddt_languages Sample.db))
    by (apply table_ok_Forall; compute_done).
  split; [exact Hok|].
  exact (get_language_from_session_total Sample.db Sample.french_request
           Hok).
Defined.

(** The answers of [get_language_from_session] on the sample database: no
    entry in the session, an empty one, an unknown locale and a stored
    one. *)
Example get_language_from_session_sample :
  get_language_from_session Sample.db (Some Sample.request) = Ok PyFalse ∧
  get_language_from_session Sample.db
    (Some {| session := {[ LANGUAGE_SESSION_KEY := "" ]} |}) = Ok PyFalse ∧
  get_language_from_session Sample.db (Some Sample.german_request)
    = Ok PyFalse ∧
  get_language_from_session Sample.db (Some Sample.french_request)
    = Ok (Lang Sample.french).
Proof. repeat split. Qed.

(** * Further facts: utils.py *)

Lemma instances_loop_spec {A B} (f : A → result B) (instances : list A)
    (acc results : list B) :
  instances_loop f instances acc = Ok results ↔
  ∃ rs, Forall2 (λ a r, f a = Ok r) instances rs ∧ results = acc ++ rs.
Proof.
  revert acc. induction instances as [|a instances IH]; intros acc; simpl.
  - split.
    + intros [= <-]. exists []. split; [constructor|by rewrite app_nil_r].
    + intros (rs & Hall & ->). apply Forall2_nil_inv_l in Hall as ->.
      by rewrite app_nil_r.
  - destruct (f a) as [r|e] eqn:Hfa; simpl.
    + rewrite IH. split.
      * intros (rs & Hall & ->). exists (r :: rs). split; [by constructor|].
        by rewrite <- app_assoc.
      * intros (rs & Hall & ->).
        apply Forall2_cons_inv_l in Hall as (r' & rs' & Hr & Hall & ->).
        rewrite Hfa in Hr. injection Hr as <-.
        exists rs'. split; [done|]. by rewrite <- app_assoc.
    + split; [done|]. intros (rs & Hall & _).
      apply Forall2_cons_inv_l in Hall as (r' & rs' & Hr & _).
      rewrite Hfa in Hr. discriminate Hr.
Qed.

Lemma instances_loop_first_error {A B} (f : A → result B)
    (before after : list A) (bad : A) (acc : list B) (e : exn) :
  Forall (λ a, is_Ok (f a)) before →
  f bad = Raise e →
  instances_loop f (before ++ bad :: after) acc = Raise e.
Proof.
  revert acc. induction before as [|a before IH]; intros acc Hall Hbad; simpl.
  - by rewrite Hbad.
  - apply Forall_cons in Hall as [Ha Hall].
    destruct (f a); [|done]. simpl. by apply IH.
Qed.

Lemma all_instances_resolved db instances depth language request l :
  resolved_language db language request = Ok l →
  all_instances_as_translated_dict db instances depth language request =
  instances_loop
    (λ instance,
       instance_as_translated_dict db instance depth (Some l) None)
    instances [].
Proof.
  unfold resolved_language, all_instances_as_translated_dict.
  destruct language as [l'|], request as [req|]; simpl; try done.
  - by intros [= ->].
  - by intros [= ->].
  - by intros ->.
Qed.

(** X1. Once the language is resolved, [all_instances_as_translated_dict]
    returns a list exactly when [instance_as_translated_dict] returns for
    every instance, and the list holds the dicts of the instances in
    order. *)
Theorem all_instances_pointwise (db : DB)
    (instances results : list (list (string * pyval))) (depth : bool)
    (language : option LanguageOrFalse) (request : option HttpRequest)
    (l : LanguageOrFalse) :
  resolved_language db language request = Ok l →
  all_instances_as_translated_dict db instances depth language request
    = Ok results ↔
  Forall2
    (λ instance r,
       instance_as_translated_dict db instance depth (Some l) None = Ok r)
    instances results.
Proof.
  intros Hl. rewrite (all_instances_resolved _ _ _ _ _ _ Hl).
  rewrite instances_loop_spec. split.
  - by intros (rs & Hall & ->).
  - intros Hall. by exists results.
Qed.

(** X2. [all_instances_as_translated_dict] stops at the first instance
    that cannot be serialized and fails with that instance's error, whatever
    comes after it. *)
Theorem all_instances_first_error (db : DB)
    (before after : list (list (string * pyval)))
    (bad : list (string * pyval)) (depth : bool)
    (language : option LanguageOrFalse) (request : option HttpRequest)
    (l : LanguageOrFalse) (e : exn) :
  resolved_language db language request = Ok l →
  Forall (λ instance,
            is_Ok (instance_as_translated_dict db instance depth (Some l) None))
    before →
  instance_as_translated_dict db bad depth (Some l) None = Raise e →
  all_instances_as_translated_dict db (before ++ bad :: after) depth language
    request = Raise e.
Proof.
  intros Hl Hbefore Hbad. rewrite (all_instances_resolved _ _ _ _ _ _ Hl).
  by apply instances_loop_first_error.
Qed.

Lemma dict_set_fresh {V} (k : string) (v : V) (d : list (string * V)) :
  k ∉ d.*1 → dict_set k v d = d ++ [(k, v)].
Proof.
  induction d as [|[k' v'] d IH]; intros Hk; simpl; [done|].
  simpl in Hk. apply not_elem_of_cons in Hk as [Hne Hk].
  rewrite decide_False by done. by rewrite IH.
Qed.

Lemma fields_loop_keys (conv : pyval → result pyval)
    (fields acc d : list (string * pyval)) :
  NoDup (acc.*1 ++ fields.*1) →
  fields_loop conv fields acc = Ok d →
  d.*1 = acc.*1 ++ (filter (λ nv, not_None nv.2) fields).*1.
Proof.
  revert acc. induction fields as [|[name value] fields IH];
    intros acc Hnd Hloop.
  - simpl in Hloop. injection Hloop as <-. by rewrite app_nil_r.
  - assert (Hfresh : name ∉ acc.*1).
    { apply NoDup_app in Hnd as (_ & Hdisj & _). intros Hin.
      apply (Hdisj name Hin). simpl. left. }
    assert (Hnd' : ∀ v, NoDup ((acc ++ [(name, v)]).*1 ++ fields.*1)).
    { intros v. rewrite fmap_app, <- app_assoc. exact Hnd. }
    assert (Hnone : NoDup (acc.*1 ++ fields.*1)).
    { simpl in Hnd. apply NoDup_app in Hnd as (Ha & Hdisj & Hf).
      apply NoDup_cons in Hf as [_ Hf]. apply NoDup_app. split; [done|].
      split; [|done]. intros x Hx Hx'. apply (Hdisj x Hx). by right. }
    destruct value; simpl in Hloop;
      try (destruct (conv _) as [v|] eqn:Hv; [|done]; simpl in Hloop;
           rewrite dict_set_fresh in Hloop by done;
           rewrite (IH _ (Hnd' v) Hloop), filter_cons_True by done;
           rewrite fmap_app, <- app_assoc; done).
    rewrite (IH _ Hnone Hloop), filter_cons_False by (simpl; tauto). done.
Qed.

(** X3. The dict returned by [instance_as_translated_dict] lists its keys
    in the order of the instance's fields: the names of the fields whose
    value is not [None], each once. *)
Theorem instance_as_translated_dict_key_order (db : DB)
    (instance d : list (string * pyval)) (depth : bool)
    (language : LanguageOrFalse) (request : option HttpRequest) :
  NoDup instance.*1 →
  instance_as_translated_dict db instance depth (Some language) request
    = Ok d →
  d.*1 = (filter (λ nv, not_None nv.2) instance).*1.
Proof.
  intros Hnd Hd.
  assert (Hloop : fields_loop (new_value db language depth) instance [] = Ok d).
  { destruct request; exact Hd. }
  by apply fields_loop_keys in Hloop.
Qed.

Lemma fields_loop_ext (conv conv' : pyval → result pyval)
    (fields acc : list (string * pyval)) :
  Forall (λ nv, conv nv.2 = conv' nv.2) fields →
  fields_loop conv fields acc = fields_loop conv' fields acc.
Proof.
  revert acc. induction fields as [|[name value] fields IH]; intros acc Hall;
    [done|].
  apply Forall_cons in Hall as [Hvalue Hall]. simpl in Hvalue.
  destruct value; simpl; rewrite <- ?Hvalue; try by apply IH.
  all: destruct (conv _); simpl; [by apply IH|done].
Qed.




(** What [get_language_from_session] reads once a name is in the
    session. *)
Lemma get_language_from_session_stored (db : DB) (request : HttpRequest)
    (language : Language) :
  table_ok language_id Language_unique (ddt_languages db) →
  language ∈ ddt_languages db →
  django_language_name language ≠ "" →
  session request !! LANGUAGE_SESSION_KEY
    = Some (django_language_name language) →
  get_language_from_session db (Some request) = Ok (Lang language).
Proof.
  intros Hok Hin Hne Hsession. simpl. rewrite Hsession.
  rewrite str_truthy_true by done.
  destruct (Language_get_by_locale db (django_language_name language) Hok)
    as [[_ Hnone]|(l & -> & _ & _ & Honly)].
  - by destruct (Hnone language Hin).
  - simpl. by rewrite (Honly language Hin).
Qed.

(** X5. After [update_user_language(request, language)] for a stored
    language, serializing with the request alone gives what serializing with
    that language gives, for one instance and for a list of instances. *)
Theorem serialize_with_updated_request (db : DB) (request request' :
    HttpRequest) (language : Language) (locale : string)
    (instance : list (string * pyval))
    (instances : list (list (string * pyval))) (depth : bool) :
  table_ok language_id Language_unique (ddt_languages db) →
  language ∈ ddt_languages db →
  django_language_name language ≠ "" →
  update_user_language db request (Some language) None
    = Ok (locale, request') →
  instance_as_translated_dict db instance depth None (Some request') =
    instance_as_translated_dict db instance depth (Some (Lang language)) None ∧
  all_instances_as_translated_dict db instances depth None (Some request') =
    all_instances_as_translated_dict db instances depth
      (Some (Lang language)) None.
Proof.
  intros Hok Hin Hne Hupdate. simpl in Hupdate. injection Hupdate as <- <-.
  assert (Hget : get_language_from_session db
                   (Some {| session :=
                              <[LANGUAGE_SESSION_KEY :=
                                  django_language_name language]>
                                (session request) |})
                 = Ok (Lang language)).
  { apply get_language_from_session_stored; try done.
    simpl. apply lookup_insert_eq. }
  unfold instance_as_translated_dict, all_instances_as_translated_dict.
  by rewrite Hget.
Qed.

(** X6. [update_user_language] writes one session key: when it returns,
    the locale it activated is the one now stored under
    [LANGUAGE_SESSION_KEY], it is the locale identifier of the language
    passed (or found from the id), and every other key of the session holds
    what it held. *)
Theorem update_user_language_frame (db : DB) (request request' : HttpRequest)
    (language : option Language) (lang_id : option Z) (locale : string) :
  update_user_language db request language lang_id = Ok (locale, request') →
  session request' !! LANGUAGE_SESSION_KEY = Some locale ∧
  (∀ key, key ≠ LANGUAGE_SESSION_KEY →
          session request' !! key = session request !! key) ∧
  ∃ l, designated_language db language lang_id l ∧
       locale = django_language_name l.
Proof.
  unfold update_user_language. intros Hupdate.
  assert (Hl : ∃ l,
    match language with
    | None => objects_get MLanguage
                (filter (λ l, pk_is (language_id l) lang_id)
                   (ddt_languages db))
    | Some l => Ok l
    end = Ok l ∧
    locale = django_language_name l ∧
    request' = {| session := <[LANGUAGE_SESSION_KEY :=
                                 django_language_name l]> (session request) |}).
  { destruct language as [l|], lang_id as [k|]; try done; simpl in Hupdate.
    - injection Hupdate as <- <-. by exists l.
    - injection Hupdate as <- <-. by exists l.
    - destruct (objects_get _ _) as [l|]; [|done]. simpl in Hupdate.
      injection Hupdate as <- <-. by exists l. }
  destruct Hl as (l & Hl & -> & ->). simpl. split; [apply lookup_insert_eq|].
  split; [intros key Hkey; by apply lookup_insert_ne|].
  exists l. split; [|done].
  destruct language as [l'|]; simpl.
  - by injection Hl as ->.
  - apply objects_get_Ok in Hl as [Hin Hpk]. by split.
Qed.

(** X7. Passing the primary key of a stored language to
    [update_user_language] does what passing the language does; when both
    are passed, the language is used and the key is not looked at. *)
Theorem update_user_language_by_id (db : DB) (request : HttpRequest)
    (language : Language) (k : Z) (other : option Z) :
  NoDup (language_id <$> ddt_languages db) →
  language ∈ ddt_languages db →
  language_id language = Some k →
  update_user_language db request None (Some k) =
    update_user_language db request (Some language) None ∧
  update_user_language db request (Some language) other =
    update_user_language db request (Some language) None.
Proof.
  intros Hnd Hin Hk. split; [|by destruct other].
  unfold update_user_language.
  destruct (filter_le_1_cases (λ l, pk_is (language_id l) (Some k))
              (ddt_languages db)) as [[_ Hnone]|(l & -> & _ & _ & Honly)].
  - apply (filter_at_most_one language_id); [done|].
    unfold pk_is. intros r r' _ _ [_ ?] [_ ?]. congruence.
  - destruct (Hnone language Hin). by split.
  - simpl. rewrite <- (Honly language Hin); [done|]. by split.
Qed.

(** X8. [update_user_language] fails without touching the session when it is
    given neither a language nor an id ([TypeError]) and when no stored
    language has the id ([Language.DoesNotExist]). *)
Theorem update_user_language_errors (db : DB) (request : HttpRequest)
    (k : Z) :
  update_user_language db request None None =
    Raise (TypeError "You must provide either 'language' or 'language_id'") ∧
  ((∀ l, l ∈ ddt_languages db → language_id l ≠ Some k) →
   update_user_language db request None (Some k) =
     Raise (DoesNotExist MLanguage)).
Proof.
  split; [done|]. intros Hnone. unfold update_user_language.
  assert (Hf : filter (λ l, pk_is (language_id l) (Some k)) (ddt_languages db)
               = []).
  { destruct (filter _ (ddt_languages db)) as [|x rest] eqn:Hf; [done|].
    assert (Hx : x ∈ filter (λ l, pk_is (language_id l) (Some k))
                       (ddt_languages db)).
    { rewrite Hf. apply list_elem_of_here. }
    apply list_elem_of_filter in Hx as [[_ Hpk] Hx]. by destruct (Hnone x Hx). }
  by rewrite Hf.
Qed.

(** X9. The session keeps one language: after [update_user_language] with a
    first language and then with a second, the request is the one a single
    update with the second language gives, and [get_language_from_session]
    returns the second language. *)
Theorem update_user_language_twice (db : DB)
    (request request1 request2 : HttpRequest) (first second : Language)
    (locale1 locale2 : string) :
  table_ok language_id Language_unique (ddt_languages db) →
  second ∈ ddt_languages db →
  django_language_name second ≠ "" →
  update_user_language db request (Some first) None = Ok (locale1, request1) →
  update_user_language db request1 (Some second) None
    = Ok (locale2, request2) →
  update_user_language db request (Some second) None = Ok (locale2, request2) ∧
  get_language_from_session db (Some request2) = Ok (Lang second).
Proof.
  intros Hok Hin Hne H1 H2. simpl in H1, H2.
  injection H1 as <- <-. injection H2 as <- <-. split.
  - simpl. by rewrite insert_insert_eq.
  - apply get_language_from_session_stored; try done.
    simpl. apply lookup_insert_eq.
Qed.

(** * Further facts: the plural lookups of the mixin *)

Lemma lookup_spec_Ok {A} (res : result A) (M : A → Prop) r :
  lookup_spec res M → (res = Ok r ↔ M r).
Proof.
  intros [(r' & -> & Hr' & Honly)|[(m & ->) Hnone]].
  - split; [by intros [= <-]|]. intros Hr. by rewrite (Honly r Hr).
  - split; [done|]. intros Hr. by destruct (Hnone r).
Qed.

Lemma get_translated_fields_elem (self : TranslatedModel) (db : DB)
    (fields : list Field) (f : Field) :
  db_ok db →
  get_translated_fields self db = Ok fields →
  f ∈ fields ↔ matching_field self db (Some (field_name f)) f.
Proof.
  intros Hok. unfold get_translated_fields.
  destruct (get_content_type_instance_spec self db Hok)
    as [(c & -> & Hc & Honly)|[(m & ->) _]]; [|done].
  simpl. intros [= <-]. rewrite list_elem_of_filter. unfold column_is.
  split.
  - intros [Hct Hf]. exists c. auto.
  - intros (c' & Hc' & Hf & Hct & _). rewrite (Honly c' Hc') in Hct. auto.
Qed.

(** X10. The fields [get_translated_fields] returns have pairwise distinct
    names, and a field is among them exactly when [get_translated_field]
    with its name returns it. *)
Theorem get_translated_fields_by_name (self : TranslatedModel) (db : DB)
    (fields : list Field) :
  db_ok db →
  get_translated_fields self db = Ok fields →
  NoDup (field_name <$> fields) ∧
  ∀ f, f ∈ fields ↔
       get_translated_field self db (Some (field_name f)) = Ok f.
Proof.
  intros Hok Hfields. split; [by eapply translated_fields_names|].
  intros f. rewrite (get_translated_fields_elem self db fields f Hok Hfields).
  symmetry. apply lookup_spec_Ok. by apply get_translated_field_spec.
Qed.

Lemma get_translated_items_elem (self : TranslatedModel) (db : DB)
    (fields : list Field) (items : list Item) (i : Item) :
  get_translated_fields self db = Ok fields →
  get_translated_items self db = Ok items →
  i ∈ items ↔
  ∃ f, f ∈ fields ∧ matching_item self db (Some f) None i.
Proof.
  intros Hfields. unfold get_translated_items. rewrite Hfields. simpl.
  intros [= <-]. rewrite list_elem_of_filter, list_elem_of_fmap.
  unfold matching_item, column_is. simpl. split.
  - intros [[Hobj (f & Hf & Hin)] Hi]. exists f. split; [done|].
    exists f. auto.
  - intros (f & Hin & f' & -> & Hi & Hobj & Hf). eauto.
Qed.

Lemma get_translated_items_by_field_aux (self : TranslatedModel) (db : DB)
    (items : list Item) :
  db_ok db →
  get_translated_items self db = Ok items →
  ∃ fields,
    get_translated_fields self db = Ok fields ∧
    ∀ i, i ∈ items ↔
         ∃ f, f ∈ fields ∧ matching_item self db (Some f) None i.
Proof.
  intros Hok Hitems.
  destruct (get_translated_fields self db) as [fields|] eqn:Hfields.
  2:{ unfold get_translated_items in Hitems. by rewrite Hfields in Hitems. }
  exists fields. split; [done|]. intros i.
  by apply get_translated_items_elem.
Qed.

(** X11. [get_translated_items] returns at most one item per translated
    field, and an item is among them exactly when [get_translated_item]
    returns it for one of the fields of [get_translated_fields]. *)
Theorem get_translated_items_by_field (self : TranslatedModel) (db : DB)
    (items : list Item) :
  db_ok db →
  get_translated_items self db = Ok items →
  NoDup (item_field <$> items) ∧
  ∃ fields,
    get_translated_fields self db = Ok fields ∧
    ∀ i, i ∈ items ↔
         ∃ f, f ∈ fields ∧ get_translated_item self db (Some f) None = Ok i.
Proof.
  intros Hok Hitems.
  destruct (get_translated_fields self db) as [fields|] eqn:Hfields.
  2:{ unfold get_translated_items in Hitems. by rewrite Hfields in Hitems. }
  split.
  - assert (Hfilter : items =
      filter (λ i, column_is (item_object_id i) (self_id self) ∧
                   Some (item_field i) ∈ field_id <$> fields)
        (ddt_items db)).
    { unfold get_translated_items in Hitems. rewrite Hfields in Hitems.
      simpl in Hitems. by injection Hitems as <-. }
    destruct Hok as (_ & _ & Hi & _).
    pose proof (table_ok_filter _ _
                  (λ i, column_is (item_object_id i) (self_id self) ∧
                        Some (item_field i) ∈ field_id <$> fields) _ Hi)
      as [Hnd Hu].
    rewrite Hfilter. apply (NoDup_key item_id); [done|].
    intros r r' Hr Hr' Hfield. apply Hu; [done|done|].
    apply list_elem_of_filter in Hr as [[Hobj _] _], Hr' as [[Hobj' _] _].
    unfold column_is in *. split; congruence.
  - exists fields. split; [done|]. intros i.
    rewrite (get_translated_items_elem self db fields items i Hfields Hitems).
    split; intros (f & Hf & Hi); exists f; (split; [done|]).
    + apply (lookup_spec_Ok _ _ i (get_translated_item_spec self db Hok
                                     (Some f) None)). done.
    + apply (lookup_spec_Ok _ _ i (get_translated_item_spec self db Hok
                                     (Some f) None)). done.
Qed.

(** X12. For a language passed as an instance, [get_translations] is
    [get_translations_all_languages] restricted to the translations in that
    language; it fails when, and as, the other fails. *)
Theorem get_translations_restricts_all_languages (self : TranslatedModel)
    (db : DB) (language : Language) (lang_id : option Z) :
  get_translations self db (Some language) lang_id =
  get_translations_all_languages self db ≫= λ translations : list Translation,
    Ok (filter (λ t, column_is (translation_language t) (language_id language))
          translations).
Proof.
  unfold get_translations, get_translations_all_languages.
  destruct (get_translated_items self db) as [items|]; [|done].
  simpl. f_equal. by rewrite list_filter_filter.
Qed.

(** X13. The translations [get_translations] returns for a language are
    the ones [get_translation] returns for the translated fields, one per
    item at most. *)
Theorem get_translations_by_field (self : TranslatedModel) (db : DB)
    (language : Language) (translations : list Translation) :
  db_ok db →
  get_translations self db (Some language) None = Ok translations →
  NoDup (translation_item <$> translations) ∧
  ∃ fields,
    get_translated_fields self db = Ok fields ∧
    ∀ t, t ∈ translations ↔
         ∃ f, f ∈ fields ∧
              get_translation self db (Some f) None (Some language) None
                = Ok t.
Proof.
  intros Hok Hts. unfold get_translations in Hts.
  destruct (get_translated_items self db) as [items|] eqn:Hitems; [|done].
  simpl in Hts. injection Hts as <-.
  destruct (get_translated_items_by_field_aux self db items Hok Hitems)
    as (fields & Hfields & Helem).
  split.
  - destruct Hok as (_ & _ & _ & _ & Ht).
    pose proof (table_ok_filter _ _
                  (λ t, column_is (translation_language t)
                          (language_id language) ∧
                        Some (translation_item t) ∈ item_id <$> items) _ Ht)
      as [Hnd Hu].
    apply (NoDup_key translation_id); [done|].
    intros r r' Hr Hr' Hitem. apply Hu; [done|done|].
    apply list_elem_of_filter in Hr as [[Hl _] _], Hr' as [[Hl' _] _].
    unfold column_is in *. split; congruence.
  - exists fields. split; [done|]. intros t.
    rewrite list_elem_of_filter, list_elem_of_fmap. split.
    + intros [[Hl (i & Hid & Hi)] Ht].
      apply Helem in Hi as (f & Hf & Hi). exists f. split; [done|].
      apply (lookup_spec_Ok _ _ t (get_translation_spec self db Hok (Some f)
                                     None (Some language) None)).
      exists i. split; [done|]. exists language. unfold column_is in Hl.
      simpl. auto.
    + intros (f & Hf & Hget).
      apply (lookup_spec_Ok _ _ t (get_translation_spec self db Hok (Some f)
                                     None (Some language) None)) in Hget
        as (i & Hi & l & Hl & Ht & Hid & Hlang).
      simpl in Hl. subst l. unfold column_is. split; [|done]. split; [done|].
      exists i. split; [done|]. apply Helem. eauto.
Qed.

Lemma Language_objects_get_pk_stored (db : DB) (language : Language) (k : Z) :
  NoDup (language_id <$> ddt_languages db) →
  language ∈ ddt_languages db →
  language_id language = Some k →
  Language_objects_get_pk db (Some k) = Ok language.
Proof.
  intros Hnd Hin Hk. unfold Language_objects_get_pk.
  destruct (filter_le_1_cases (λ l, pk_is (language_id l) (Some k))
              (ddt_languages db)) as [[_ Hnone]|(l & -> & _ & _ & Honly)].
  - apply (filter_at_most_one language_id); [done|].
    unfold pk_is. intros r r' _ _ [_ ?] [_ ?]. congruence.
  - destruct (Hnone language Hin). by split.
  - simpl. rewrite <- (Honly language Hin); [done|]. by split.
Qed.

(** X14. In [get_translation], [get_translations] and
    [dict_with_translations], passing the primary key of a stored language
    as [language_id] gives what passing the language gives. *)
Theorem mixin_language_by_id (self : TranslatedModel) (db : DB)
    (field : option Field) (name : option string) (language : Language)
    (k : Z) :
  NoDup (language_id <$> ddt_languages db) →
  language ∈ ddt_languages db →
  language_id language = Some k →
  get_translation self db field name None (Some k) =
    get_translation self db field name (Some language) None ∧
  get_translations self db None (Some k) =
    get_translations self db (Some language) None ∧
  dict_with_translations self db None (Some k) =
    dict_with_translations self db (Some language) None.
Proof.
  intros Hnd Hin Hk.
  pose proof (Language_objects_get_pk_stored db language k Hnd Hin Hk) as Hget.
  unfold get_translation, get_translations, dict_with_translations.
  by rewrite Hget.
Qed.

(** * Further facts: [Language.save] and the stored languages *)

Section SaveAgain.
Context {A : Type}.
Variable m : model_name.
Variable pk : A → option Z.
Variable with_pk : Z → A → A.
Variable collides : A → A → Prop.
Context `{!RelDecision collides}.
Hypothesis collides_sym : ∀ r r', collides r r' → collides r' r.
Hypothesis pk_with_pk : ∀ k r, pk (with_pk k r) = Some k.

Lemma replace_pk_same k self (rows : list A) :
(∀ r, r ∈ rows → pk r = Some k → r = self) →
replace_pk pk k self rows = rows.
Proof.
intros Honly. unfold replace_pk. rewrite <- (list_fmap_id rows) at 2.
apply list_fmap_ext. intros i r Hr. simpl.
destruct (decide (pk r = Some k)) as [Hk|]; [|done].
symmetry. apply Honly; [|done]. by eapply list_elem_of_lookup_2.
Qed.

(** Saving what a save returned changes nothing. *)
Lemma Model_save_again self rows self' rows' :
table_ok pk collides rows →
Model_save m pk with_pk collides self rows = Ok (self', rows') →
Model_save m pk with_pk collides self' rows' = Ok (self', rows').
Proof.
intros Hok Hsave.
pose proof (Model_save_table_ok m pk with_pk collides collides_sym
              pk_with_pk _ _ _ _ Hok Hsave) as [Hnd Hu].
apply (Model_save_stored m pk with_pk collides pk_with_pk) in Hsave
  as (_ & [k Hk] & Hin & Honly & _).
unfold Model_save. rewrite Hk.
rewrite decide_False.
2:{ rewrite Exists_exists. intros (r & Hr & Hne & Hc).
    apply Hne. rewrite <- Hk. symmetry. by apply Hu. }
rewrite decide_True by (apply Exists_exists; eauto).
rewrite replace_pk_same; [done|].
intros r Hr Hrk. apply Honly; [done|]. congruence.
Qed.
End SaveAgain.

Lemma Language_upper_fix (l : Language) :
  iso_upper l →
  {| language_id := language_id l; language_name := language_name l;
     iso2 := upper (iso2 l); iso3 := upper (iso3 l);
     django_language_name := django_language_name l |} = l.
Proof. intros [H2 H3]. destruct l. simpl in *. by rewrite <- H2, <- H3. Qed.

Lemma Language_save_iso_upper self db self' db' :
  Language_save self db = Ok (self', db') → iso_upper self'.
Proof.
  unfold Language_save. intros H. save_inv H as saved rows.
  apply Model_save_stored in Esave as (Hself & _); [|done].
  destruct Hself as [->|[_ (k & ->)]]; split; simpl;
    by rewrite upper_idemp.
Qed.

(** X15. [Language.save] is idempotent: saving again the instance a save
    returned succeeds, returns the same instance and leaves the database as
    the first save left it. *)
Theorem Language_save_idempotent (self self' : Language) (db db' : DB) :
  table_ok language_id Language_unique (ddt_languages db) →
  Language_save self db = Ok (self', db') →
  Language_save self' db' = Ok (self', db').
Proof.
  intros Hok Hsave.
  pose proof (Language_save_iso_upper _ _ _ _ Hsave) as Hupper.
  unfold Language_save in *. simpl in *.
  rewrite (Language_upper_fix self' Hupper).
  save_inv Hsave as saved rows. simpl.
  rewrite (Model_save_again MLanguage language_id Language_with_pk
             Language_unique Language_unique_sym (λ _ _, eq_refl)
             _ _ _ _ Hok Esave).
  done.
Qed.

Lemma Model_save_rows {A} m (pk : A → option Z) with_pk
    (collides : A → A → Prop) `{!RelDecision collides}
    (self self' : A) (rows rows' : list A) :
  (∀ k r, pk (with_pk k r) = Some k) →
  Model_save m pk with_pk collides self rows = Ok (self', rows') →
  ∀ r, r ∈ rows' → r = self' ∨ r ∈ rows.
Proof.
  intros Hpk Hsave r Hr.
  apply (Model_save_stored m pk with_pk collides Hpk) in Hsave
    as (_ & _ & _ & Honly & Hrest).
  destruct (decide (pk r = pk self')) as [Heq|Hne].
  - left. by apply Honly.
  - right. by apply Hrest.
Qed.

Lemma step_languages db db' :
  step db db' →
  ∀ l, l ∈ ddt_languages db' → l ∈ ddt_languages db ∨ iso_upper l.
Proof.
  intros Hstep l.
  destruct Hstep as
    [s s' db db' H|s s' db db' H|s s' db db' H|s s' db db' H|s s' db db' H
    |s db db' H|s db db' H|s db db' H|s db db' H|s db db' H].
  - unfold ContentType_save in H. save_inv H as saved rows. auto.
  - unfold Field_save in H. save_inv H as saved rows. auto.
  - unfold Item_save in H. save_inv H as saved rows. auto.
  - pose proof (Language_save_iso_upper _ _ _ _ H) as Hupper.
    unfold Language_save in H. save_inv H as saved rows. simpl.
    intros Hl.
    destruct (Model_save_rows MLanguage language_id Language_with_pk
                Language_unique _ _ _ _ (λ _ _, eq_refl) Esave l Hl)
      as [->|Hold]; auto.
  - unfold Translation_save in H. save_inv H as saved rows. auto.
  - unfold ContentType_delete in H. destruct (ct_id s); [|done].
    injection H as <-. auto.
  - unfold Field_delete in H. destruct (field_id s); [|done].
    injection H as <-. auto.
  - unfold Item_delete in H. destruct (item_id s); [|done].
    injection H as <-. auto.
  - unfold Language_delete in H. destruct (language_id s); [|done].
    injection H as <-. simpl. rewrite list_elem_of_filter. tauto.
  - unfold Translation_delete in H. destruct (translation_id s); [|done].
    injection H as <-. auto.
Qed.

(** X16. In every database state reached from the empty database by saves
    and deletes, the [iso2] and [iso3] of every stored language are in upper
    case. *)
Theorem reachable_iso_upper (db : DB) :
  reachable db → ∀ l, l ∈ ddt_languages db → iso_upper l.
Proof.
  induction 1 as [|db db' _ IH Hstep]; intros l Hl.
  - inversion Hl.
  - destruct (step_languages db db' Hstep l Hl); auto.
Qed.

(** X17. ISO codes are unique whatever the case they are typed in:
    [Language.save] refuses, with an integrity error, a language whose
    upper-cased [iso2] or [iso3] is the code of a language stored under
    another primary key. *)
Theorem Language_save_code_taken (self stored : Language) (db : DB) :
  stored ∈ ddt_languages db →
  language_id self = None ∨ language_id stored ≠ language_id self →
  iso2 stored = upper (iso2 self) ∨ iso3 stored = upper (iso3 self) →
  Language_save self db = Raise (IntegrityError MLanguage).
Proof.
  intros Hin Hpk Hcode. unfold Language_save, Model_save. simpl.
  assert (Hc : ∀ k, Language_unique
                 {| language_id := k; language_name := language_name self;
                    iso2 := upper (iso2 self); iso3 := upper (iso3 self);
                    django_language_name := django_language_name self |}
                 stored).
  { intros k. unfold Language_unique. simpl. destruct Hcode; auto. }
  destruct (language_id self) as [k|] eqn:Hk.
  - rewrite decide_True; [done|]. apply Exists_exists. exists stored.
    split; [done|]. split; [|apply Hc]. destruct Hpk; [done|done].
  - simpl. rewrite decide_True; [done|]. apply Exists_exists. exists stored.
    split; [done|]. apply Hc.
Qed.

(** X19. In every database state reached from the empty database by saves
    and deletes, the unique constraints of [Field], [Item] and [Language]
    hold: at most one field per (content type, name), at most one item per
    (field, object), at most one language per name, per [iso2], per [iso3]
    and per locale identifier. *)
Theorem reachable_unique_constraints (db : DB) :
  reachable db →
  (∀ content_type name,
     (length (filter (λ f, field_content_type f = content_type ∧
                           field_name f = name) (ddt_fields db)) ≤ 1)%nat) ∧
  (∀ field object_id,
     (length (filter (λ i, item_field i = field ∧
                           item_object_id i = object_id) (ddt_items db))
      ≤ 1)%nat) ∧
  (∀ code,
     (length (filter (λ l, language_name l = code) (ddt_languages db))
      ≤ 1)%nat ∧
     (length (filter (λ l, iso2 l = code) (ddt_languages db)) ≤ 1)%nat ∧
     (length (filter (λ l, iso3 l = code) (ddt_languages db)) ≤ 1)%nat ∧
     (length (filter (λ l, django_language_name l = code) (ddt_languages db))
      ≤ 1)%nat).
Proof.
  intros Hr. destruct (reachable_db_ok db Hr) as (_ & Hf & Hi & Hl & _).
  split; [|split].
  - intros ct name. eapply table_ok_at_most_one; [exact Hf|].
    intros r r' [? ?] [? ?]. split; congruence.
  - intros field obj. eapply table_ok_at_most_one; [exact Hi|].
    intros r r' [? ?] [? ?]. split; congruence.
  - intros code. repeat split;
      (eapply table_ok_at_most_one; [exact Hl|]);
      intros r r' Hr1 Hr2; unfold Language_unique;
      [left|right; left|right; right; left|right; right; right]; congruence.
Qed.

(** * Further facts: the counts and the texts *)

Lemma sum_list_with_plus {A} (f g : A → nat) (l : list A) :
  sum_list_with (λ x, f x + g x)%nat l
  = (sum_list_with f l + sum_list_with g l)%nat.
Proof. induction l as [|x l IH]; simpl; [done|]. rewrite IH. lia. Qed.

Lemma sum_list_with_indicator {A} (P : A → Prop) `{!∀ x, Decision (P x)}
    (l : list A) :
  sum_list_with (λ x, if decide (P x) then 1 else 0)%nat l
  = length (filter P l).
Proof.
  induction l as [|x l IH]; simpl; [done|]. rewrite filter_cons.
  destruct (decide (P x)); simpl; rewrite IH; done.
Qed.

Lemma sum_list_with_ext {A} (f g : A → nat) (l : list A) :
  (∀ x, f x = g x) → sum_list_with f l = sum_list_with g l.
Proof. intros Hfg. induction l as [|x l IH]; simpl; [done|]. by rewrite Hfg, IH. Qed.

Lemma filter_none {A} (P : A → Prop) `{!∀ x, Decision (P x)} (l : list A) :
  (∀ x, x ∈ l → ¬ P x) → filter P l = [].
Proof.
  induction l as [|x l IH]; intros Hnone; [done|].
  rewrite filter_cons_False by (apply Hnone; left).
  apply IH. intros y Hy. apply Hnone. by right.
Qed.

Lemma items_count_by_item (db : DB) (self : Field) (ts : list Translation) :
  NoDup (item_id <$> ddt_items db) →
  length (filter (λ t, translation_of_field db self t ∧
                       translation_text t = "") ts) =
  sum_list_with
    (λ i, length
            (filter (λ t, translation_text t = "")
               (filter (λ t, column_is (translation_item t) (item_id i)) ts)))
    (filter (λ i, column_is (item_field i) (field_id self)) (ddt_items db)).
Proof.
  intros Hnd. induction ts as [|t ts IH]; simpl.
  - by induction (filter _ (ddt_items db)).
  - rewrite (sum_list_with_ext _
               (λ i, (if decide (column_is (translation_item t) (item_id i) ∧
                                 translation_text t = "")
                      then 1 else 0) +
                     length
                       (filter (λ t, translation_text t = "")
                          (filter (λ t, column_is (translation_item t)
                                          (item_id i)) ts)))%nat).
    2:{ intros i. rewrite filter_cons.
        destruct (decide (column_is (translation_item t) (item_id i)))
          as [Hi|Hi].
        - rewrite filter_cons.
          destruct (decide (translation_text t = "")) as [Ht|Ht].
          + by rewrite decide_True.
          + rewrite decide_False by tauto. done.
        - rewrite decide_False by tauto. done. }
    rewrite sum_list_with_plus, <- IH, sum_list_with_indicator.
    rewrite filter_cons, list_filter_filter.
    assert (Hone : (length
              (filter (λ i, item_id i = Some (translation_item t) ∧
                            field_id self = Some (item_field i))
                 (ddt_items db)) ≤ 1)%nat).
    { apply (filter_at_most_one item_id); [done|].
      intros r r' _ _ [? _] [? _]. congruence. }
    destruct (filter_le_1_cases _ _ Hone)
      as [[Hf Hnone]|(i & Hf & Hi & [Hid Hfield] & _)].
    + rewrite decide_False.
      2:{ intros [Hex _]. apply Exists_exists in Hex as (i & Hi & Hid & Hfd).
          apply (Hnone i Hi). by split. }
      rewrite (filter_none (λ i, (column_is (translation_item t) (item_id i) ∧
                                  translation_text t = "") ∧
                                 column_is (item_field i) (field_id self))).
      2:{ intros x Hx [[Hid _] Hfd]. apply (Hnone x Hx). by split. }
      done.
    + destruct (decide (translation_text t = "")) as [Ht|Ht].
      * rewrite decide_True.
        2:{ split; [|done]. apply Exists_exists. exists i. auto. }
        rewrite (list_filter_iff _
                   (λ i, item_id i = Some (translation_item t) ∧
                         field_id self = Some (item_field i))).
        2:{ intros x. unfold column_is. tauto. }
        by rewrite Hf.
      * rewrite decide_False by tauto.
        rewrite (filter_none
                   (λ i, (column_is (translation_item t) (item_id i) ∧
                          translation_text t = "") ∧
                         column_is (item_field i) (field_id self))).
        2:{ intros x _ [[_ Htext] _]. by apply Ht. }
        done.
Qed.

(** X18. The missing translations of a field are those of its items:
    [Field.count_missing_translations] is the sum of
    [Item.count_missing_translations] over the items of the field. *)
Theorem Field_count_missing_is_sum_over_items (db : DB) (self : Field) :
  NoDup (item_id <$> ddt_items db) →
  Field_count_missing_translations self db =
  sum_list_with (λ i, Item_count_missing_translations i db)
    (filter (λ i, column_is (item_field i) (field_id self)) (ddt_items db)).
Proof.
  intros Hnd. unfold Field_count_missing_translations, translations_join_items.
  rewrite (join_count db self (ddt_translations db) Hnd).
  by apply items_count_by_item.
Qed.

(** X21. [Field.count_items] counts each object once: the items of a field
    belong to pairwise distinct objects, and the count is the number of
    these objects. *)
Theorem Field_count_items_objects (db : DB) (self : Field) :
  table_ok item_id Item_unique_together (ddt_items db) →
  NoDup (item_object_id <$>
           filter (λ i, column_is (item_field i) (field_id self))
             (ddt_items db)) ∧
  Field_count_items self db =
    length (item_object_id <$>
              filter (λ i, column_is (item_field i) (field_id self))
                (ddt_items db)).
Proof.
  intros Hok. split; [|unfold Field_count_items; by rewrite length_fmap].
  pose proof (table_ok_filter _ _
                (λ i, column_is (item_field i) (field_id self)) _ Hok)
    as [Hnd Hu].
  apply (NoDup_key item_id); [done|].
  intros r r' Hr Hr' Hobj. apply Hu; [done|done|].
  apply list_elem_of_filter in Hr as [Hf _], Hr' as [Hf' _].
  unfold column_is in *. split; congruence.
Qed.

Lemma str_slice_to_spec (n : nat) (s : string) :
  String.length (str_slice_to n s) = Nat.min n (String.length s) ∧
  (∃ rest, s = String.append (str_slice_to n s) rest) ∧
  ((String.length s ≤ n)%nat → str_slice_to n s = s).
Proof.
  revert s. induction n as [|n IH]; intros s.
  - simpl. split; [done|]. split; [by exists s|].
    destruct s; simpl; [done|lia].
  - destruct s as [|c s]; simpl.
    + split; [done|]. split; [by exists ""|done].
    + destruct (IH s) as (Hlen & [rest Hrest] & Hshort).
      split; [by rewrite Hlen|]. split.
      * exists rest.
        change (String c s = String c (String.append (str_slice_to n s) rest)).
        by rewrite <- Hrest.
      * intros Hle. rewrite Hshort; [done|lia].
Qed.

(** X20. [Translation.truncated_text] is the text when the text has at most
    20 characters, and otherwise its first 20 characters: it is a prefix of
    the text of length min(20, length of the text). *)
Theorem truncated_text_prefix (self : Translation) :
  String.length (Translation_truncated_text self)
    = Nat.min 20 (String.length (translation_text self)) ∧
  (∃ rest, translation_text self
           = String.append (Translation_truncated_text self) rest) ∧
  ((String.length (translation_text self) ≤ 20)%nat →
   Translation_truncated_text self = translation_text self).
Proof. apply str_slice_to_spec. Qed.

(** * Further facts: writing the text of a translation *)

Lemma replace_pk_split {A} (pk : A → option Z) (k : Z) (old new : A)
    (before after : list A) :
  NoDup (pk <$> (before ++ old :: after)) →
  pk old = Some k →
  replace_pk pk k new (before ++ old :: after) = before ++ new :: after.
Proof.
  intros Hnd Hk. rewrite fmap_app, fmap_cons in Hnd.
  apply NoDup_app in Hnd as (_ & Hdisj & Hnd).
  apply NoDup_cons in Hnd as [Hafter _].
  unfold replace_pk. rewrite fmap_app, fmap_cons.
  rewrite decide_True by done. f_equal; [|f_equal].
  - rewrite <- (list_fmap_id before) at 2. apply list_fmap_ext.
    intros i r Hr. simpl. rewrite decide_False; [done|].
    intros Hrk. apply (Hdisj (pk r)).
    + apply list_elem_of_fmap. exists r. split; [done|].
      by eapply list_elem_of_lookup_2.
    + rewrite Hrk, <- Hk. left.
  - rewrite <- (list_fmap_id after) at 2. apply list_fmap_ext.
    intros i r Hr. simpl. rewrite decide_False; [done|].
    intros Hrk. apply Hafter. rewrite Hk, <- Hrk.
    apply list_elem_of_fmap. exists r. split; [done|].
    by eapply list_elem_of_lookup_2.
Qed.

Lemma count_replace (Q : Translation → Prop) `{!∀ t, Decision (Q t)}
    (old new : Translation) (before after : list Translation) :
  (Q new ↔ Q old) →
  Q old →
  (length (filter (λ t, translation_text t = "")
             (filter Q (before ++ new :: after)))
   + missing (translation_text old) =
   length (filter (λ t, translation_text t = "")
             (filter Q (before ++ old :: after)))
   + missing (translation_text new))%nat.
Proof.
  intros Hiff Hold. assert (Hnew : Q new) by tauto.
  rewrite !filter_app, !length_app.
  rewrite (filter_cons_True Q new), (filter_cons_True Q old) by done.
  rewrite !filter_cons. unfold missing.
  destruct (decide (translation_text new = "")),
           (decide (translation_text old = "")); simpl; lia.
Qed.

Lemma count_replace_other (Q : Translation → Prop) `{!∀ t, Decision (Q t)}
    (old new : Translation) (before after : list Translation) :
  (Q new ↔ Q old) →
  ¬ Q old →
  length (filter (λ t, translation_text t = "")
            (filter Q (before ++ new :: after))) =
  length (filter (λ t, translation_text t = "")
            (filter Q (before ++ old :: after))).
Proof.
  intros Hiff Hold. assert (Hnew : ¬ Q new) by tauto.
  rewrite !filter_app.
  by rewrite (filter_cons_False Q new), (filter_cons_False Q old).
Qed.

Lemma Translation_save_text_rows (db : DB) (old : Translation) (k : Z)
    (text : string) (before after : list Translation) :
  table_ok translation_id Translation_unique_together (ddt_translations db) →
  ddt_translations db = before ++ old :: after →
  translation_id old = Some k →
  Translation_save (Translation_with_text text old) db =
  Ok (Translation_with_text text old,
      set_translations (before ++ Translation_with_text text old :: after) db).
Proof.
  intros [Hnd Hu] Hrows Hk. unfold Translation_save, Model_save. simpl.
  rewrite Hk.
  assert (Hold : old ∈ ddt_translations db).
  { rewrite Hrows. apply elem_of_app. right. left. }
  rewrite decide_False.
  2:{ rewrite Exists_exists. intros (r & Hr & Hne & Hc).
      apply Hne. rewrite <- Hk. symmetry. by apply Hu. }
  rewrite decide_True by (apply Exists_exists; eauto).
  simpl. rewrite Hrows, replace_pk_split; [done| |done].
  by rewrite <- Hrows.
Qed.

(** X22. Writing a text on a stored translation and saving it succeeds and
    rewrites that row alone; the tables other than [ddt_translations] are
    untouched; and in [Item.count_missing_translations] of its item and
    [Language.count_missing_translations] of its language the translation
    counts afterwards for its new text (one when empty, nothing otherwise)
    instead of its old one, while the counts of the other items and
    languages stay. *)
Theorem Translation_save_text (db : DB) (old : Translation) (k : Z)
    (text : string) :
  table_ok translation_id Translation_unique_together (ddt_translations db) →
  old ∈ ddt_translations db →
  translation_id old = Some k →
  ∃ db',
    Translation_save (Translation_with_text text old) db
      = Ok (Translation_with_text text old, db') ∧
    (∃ before after,
       ddt_translations db = before ++ old :: after ∧
       ddt_translations db'
         = before ++ Translation_with_text text old :: after) ∧
    (django_content_type db' = django_content_type db ∧
     ddt_fields db' = ddt_fields db ∧ ddt_items db' = ddt_items db ∧
     ddt_languages db' = ddt_languages db) ∧
    (∀ item,
       if decide (item_id item = Some (translation_item old))
       then (Item_count_missing_translations item db'
             + missing (translation_text old) =
             Item_count_missing_translations item db + missing text)%nat
       else Item_count_missing_translations item db'
            = Item_count_missing_translations item db) ∧
    (∀ language,
       if decide (language_id language = Some (translation_language old))
       then (Language_count_missing_translations language db'
             + missing (translation_text old) =
             Language_count_missing_translations language db
             + missing text)%nat
       else Language_count_missing_translations language db'
            = Language_count_missing_translations language db).
Proof.
  intros Hok Hin Hk.
  destruct (list_elem_of_split _ _ Hin) as (before & after & Hrows).
  eexists. split;
    [exact (Translation_save_text_rows db old k text before after Hok Hrows
              Hk)|].
  split; [by exists before, after|]. split; [done|].
  unfold Item_count_missing_translations, Language_count_missing_translations.
  simpl. rewrite Hrows. split.
  - intros item. destruct (decide _) as [Hitem|Hitem].
    + by apply (count_replace
                  (λ t, column_is (translation_item t) (item_id item))).
    + by apply (count_replace_other
                  (λ t, column_is (translation_item t) (item_id item))).
  - intros language. destruct (decide _) as [Hl|Hl].
    + by apply (count_replace
                  (λ t, column_is (translation_language t)
                          (language_id language))).
    + by apply (count_replace_other
                  (λ t, column_is (translation_language t)
                          (language_id language))).
Qed.

(** * Further facts: how the serializers and the lookups fail *)





Lemma lookup_spec_cases {A} (res : result A) (M : A → Prop) :
  lookup_spec res M → is_Ok res ∨ not_found res.
Proof. intros [(r & -> & _)|[Hnf _]]; [by left|by right]. Qed.

Lemma translations_loop_cases self db language fields acc :
  db_ok db →
  is_Ok (translations_loop self db language fields acc) ∨
  not_found (translations_loop self db language fields acc).
Proof.
  intros Hok. revert acc. induction fields as [|f fields IH]; intros acc;
    [by left|].
  simpl.
  destruct (lookup_spec_cases _ _
              (get_translation_spec self db Hok (Some f) None (Some language)
                 None)) as [Hget|[m Hget]].
  - destruct (get_translation _ _ _ _ _ _); [|done]. simpl. apply IH.
  - rewrite Hget. right. by exists m.
Qed.

(** X24. In a database that satisfies its constraints,
    [dict_with_translations] returns a dict or fails with a not-found
    error ([DoesNotExist] of a model); it raises nothing else. *)
Theorem dict_with_translations_fails_only_not_found (self : TranslatedModel)
    (db : DB) (language : option Language) (lang_id : option Z) :
  db_ok db →
  is_Ok (dict_with_translations self db language lang_id) ∨
  not_found (dict_with_translations self db language lang_id).
Proof.
  intros Hok. unfold dict_with_translations.
  destruct (lookup_spec_cases _ _
              (designated_language_spec db Hok language lang_id))
    as [Hl|[m Hl]].
  2:{ rewrite Hl. right. by exists m. }
  destruct (match language with
            | None => Language_objects_get_pk db lang_id
            | Some l => Ok l
            end) as [l|]; [|done].
  simpl. unfold get_translated_fields.
  destruct (lookup_spec_cases _ _ (get_content_type_instance_spec self db Hok))
    as [Hc|[m Hc]].
  2:{ rewrite Hc. right. by exists m. }
  destruct (get_content_type_instance self db) as [c|]; [|done].
  simpl. by apply translations_loop_cases.
Qed.

(** X25. For an instance that was never saved ([id] is [None]) the plural
    lookups return empty lists, where [get_translated_item] fails with
    [Item.DoesNotExist]. *)
Theorem unsaved_instance_lookups (self : TranslatedModel) (db : DB)
    (fields : list Field) (field : Field) (language : Language) :
  self_id self = None →
  get_translated_fields self db = Ok fields →
  get_translated_items self db = Ok [] ∧
  get_translations self db (Some language) None = Ok [] ∧
  get_translations_all_languages self db = Ok [] ∧
  get_translated_item self db (Some field) None = Raise (DoesNotExist MItem).
Proof.
  intros Hid Hfields.
  assert (Hitems : get_translated_items self db = Ok []).
  { unfold get_translated_items. rewrite Hfields. simpl. rewrite Hid.
    rewrite filter_none; [done|]. unfold column_is. by intros i _ [? _]. }
  split; [done|].
  unfold get_translations, get_translations_all_languages,
    get_translated_item.
  rewrite Hitems. simpl. rewrite Hid.
  rewrite !filter_none; [done| | |].
  - unfold column_is. by intros i _ [? _].
  - intros t _ Hin. inversion Hin.
  - intros t _ [_ Hin]. inversion Hin.
Qed.

(** X26. [depth] only matters for the fields that hold a model instance:
    for an instance without such a field, [instance_as_translated_dict]
    gives the same result with [depth] on and off. *)
Theorem depth_only_matters_for_related (db : DB)
    (instance : list (string * pyval)) (language : LanguageOrFalse)
    (request : option HttpRequest) :
  Forall (λ nv, not_Model nv.2) instance →
  instance_as_translated_dict db instance true (Some language) request =
  instance_as_translated_dict db instance false (Some language) request.
Proof.
  intros Hflat.
  assert (Heq : fields_loop (new_value db language true) instance [] =
                fields_loop (new_value db language false) instance []).
  { apply fields_loop_ext. eapply Forall_impl; [exact Hflat|].
    intros [name value] Hvalue. by destruct value. }
  destruct request; exact Heq.
Qed.

(** * The further facts on the sample databases *)

Lemma sample_tables_ok :
  table_ok language_id Language_unique (ddt_languages Sample.db) ∧
  table_ok item_id Item_unique_together (ddt_items Sample.db) ∧
  table_ok translation_id Translation_unique_together
    (ddt_translations Sample.db).
Proof.
  refine (conj _ (conj _ _)); apply table_ok_Forall; compute_done.
Qed.

(** One more save on a reachable state. *)
Ltac then_save H save_step row :=
  lazymatch type of H with
  | reachable ?db =>
      let H' := fresh "Hreach" in
      eassert (H' : reachable _);
      [ apply (reachable_step db); [exact H|];
        eapply (save_step row); reflexivity
      | clear H; rename H' into H ]
  end.

(** The sample database is reached from the empty one by saving its rows,
    table after table. *)
Lemma sample_db_reachable : reachable Sample.db.
Proof.
  pose proof reachable_empty as H.
  then_save H step_ContentType_save Sample.product_type.
  then_save H step_Field_save Sample.name_field.
  then_save H step_Field_save Sample.description_field.
  then_save H step_Item_save Sample.chair_name.
  then_save H step_Item_save Sample.chair_description.
  then_save H step_Item_save Sample.table_name.
  then_save H step_Language_save Sample.french.
  then_save H step_Language_save Sample.english.
  then_save H step_Translation_save (Sample.translation 100 1 10 "Chaise").
  then_save H step_Translation_save (Sample.translation 101 2 10 "Chair").
  then_save H step_Translation_save (Sample.translation 102 1 11 "").
  then_save H step_Translation_save (Sample.translation 103 2 11 "A seat").
  then_save H step_Translation_save (Sample.translation 104 1 12 "").
  then_save H step_Translation_save (Sample.translation 105 2 12 "Table").
  exact H.
Qed.

Lemma one_language_reachable : reachable Sample2.one_language.
Proof.
  apply (reachable_step empty_db); [apply reachable_empty|].
  by apply (step_Language_save Sample.spanish_typed Sample2.first_language).
Qed.

Lemma all_instances_pointwise_witness :
  resolved_language Sample.db (Some (Lang Sample.english)) None
    = Ok (Lang Sample.english) ∧
  (all_instances_as_translated_dict Sample.db
     [Sample.chair_fields; Sample3.category_fields] true
     (Some (Lang Sample.english)) None
   = Ok [Sample.chair_translated;
         [("id", PInt 3); ("label", PStr "furniture")]] ↔
   Forall2
     (λ instance r,
        instance_as_translated_dict Sample.db instance true
          (Some (Lang Sample.english)) None = Ok r)
     [Sample.chair_fields; Sample3.category_fields]
     [Sample.chair_translated;
      [("id", PInt 3); ("label", PStr "furniture")]]).
Proof.
  split; [reflexivity|].
  exact (all_instances_pointwise Sample.db
           [Sample.chair_fields; Sample3.category_fields]
           [Sample.chair_translated;
            [("id", PInt 3); ("label", PStr "furniture")]]
           true (Some (Lang Sample.english)) None (Lang Sample.english)
           eq_refl).
Defined.

Lemma all_instances_first_error_witness :
  resolved_language Sample.db (Some (Lang Sample.english)) None
    = Ok (Lang Sample.english) ∧
  Forall (λ instance,
            is_Ok (instance_as_translated_dict Sample.db instance true
                     (Some (Lang Sample.english)) None))
    [Sample.chair_fields] ∧
  instance_as_translated_dict Sample.db Sample3.stray_fields true
    (Some (Lang Sample.english)) None = Raise (DoesNotExist MTranslation) ∧
  all_instances_as_translated_dict Sample.db
    ([Sample.chair_fields] ++ Sample3.stray_fields :: [Sample3.flat_fields])
    true (Some (Lang Sample.english)) None
  = Raise (DoesNotExist MTranslation).
Proof.
  assert (Hbefore :
    Forall (λ instance,
              is_Ok (instance_as_translated_dict Sample.db instance true
                       (Some (Lang Sample.english)) None))
      [Sample.chair_fields]) by (repeat constructor).
  split; [reflexivity|]. split; [exact Hbefore|]. split; [reflexivity|].
  exact (all_instances_first_error Sample.db [Sample.chair_fields]
           [Sample3.flat_fields] Sample3.stray_fields true
           (Some (Lang Sample.english)) None (Lang Sample.english)
           (DoesNotExist MTranslation) eq_refl Hbefore eq_refl).
Defined.

Lemma instance_as_translated_dict_key_order_witness :
  NoDup Sample.chair_fields.*1 ∧
  instance_as_translated_dict Sample.db Sample.chair_fields true
    (Some (Lang Sample.english)) None = Ok Sample.chair_translated ∧
  Sample.chair_translated.*1 =
    (filter (λ nv, not_None nv.2) Sample.chair_fields).*1.
Proof.
  assert (Hnd : NoDup Sample.chair_fields.*1) by compute_done.
  split; [exact Hnd|]. split; [reflexivity|].
  exact (instance_as_translated_dict_key_order Sample.db Sample.chair_fields
           Sample.chair_translated true (Lang Sample.english) None Hnd
           eq_refl).
Defined.


Lemma serialize_with_updated_request_witness :
  table_ok language_id Language_unique (ddt_languages Sample.db) ∧
  Sample.english ∈ ddt_languages Sample.db ∧
  django_language_name Sample.english ≠ "" ∧
  update_user_language Sample.db Sample.request (Some Sample.english) None
    = Ok ("en", Sample3.english_request) ∧
  instance_as_translated_dict Sample.db Sample.chair_fields true None
    (Some Sample3.english_request) =
  instance_as_translated_dict Sample.db Sample.chair_fields true
    (Some (Lang Sample.english)) None ∧
  all_instances_as_translated_dict Sample.db [Sample.chair_fields] true None
    (Some Sample3.english_request) =
  all_instances_as_translated_dict Sample.db [Sample.chair_fields] true
    (Some (Lang Sample.english)) None.
Proof.
  destruct sample_tables_ok as (Hok & _ & _).
  assert (Hin : Sample.english ∈ ddt_languages Sample.db) by compute_done.
  assert (Hne : django_language_name Sample.english ≠ "") by compute_done.
  split; [exact Hok|]. split; [exact Hin|]. split; [exact Hne|].
  split; [reflexivity|].
  exact (serialize_with_updated_request Sample.db Sample.request
           Sample3.english_request Sample.english "en" Sample.chair_fields
           [Sample.chair_fields] true Hok Hin Hne eq_refl).
Defined.

Lemma update_user_language_frame_witness :
  update_user_language Sample.db Sample.french_request None (Some 2)
    = Ok ("en", Sample3.french_then_english_request) ∧
  session Sample3.french_then_english_request !! LANGUAGE_SESSION_KEY
    = Some "en" ∧
  (∀ key, key ≠ LANGUAGE_SESSION_KEY →
          session Sample3.french_then_english_request !! key
          = session Sample.french_request !! key) ∧
  ∃ l, designated_language Sample.db None (Some 2) l ∧
       "en" = django_language_name l.
Proof.
  split; [reflexivity|].
  exact (update_user_language_frame Sample.db Sample.french_request
           Sample3.french_then_english_request None (Some 2) "en" eq_refl).
Defined.

Lemma update_user_language_by_id_witness :
  NoDup (language_id <$> ddt_languages Sample.db) ∧
  Sample.english ∈ ddt_languages Sample.db ∧
  language_id Sample.english = Some 2 ∧
  update_user_language Sample.db Sample.request None (Some 2) =
    update_user_language Sample.db Sample.request (Some Sample.english) None ∧
  update_user_language Sample.db Sample.request (Some Sample.english) (Some 1)
    = update_user_language Sample.db Sample.request (Some Sample.english) None.
Proof.
  assert (Hnd : NoDup (language_id <$> ddt_languages Sample.db))
    by compute_done.
  assert (Hin : Sample.english ∈ ddt_languages Sample.db) by compute_done.
  split; [exact Hnd|]. split; [exact Hin|]. split; [reflexivity|].
  exact (update_user_language_by_id Sample.db Sample.request Sample.english 2
           (Some 1) Hnd Hin eq_refl).
Defined.

Lemma update_user_language_errors_witness :
  update_user_language Sample.db Sample.request None None =
    Raise (TypeError "You must provide either 'language' or 'language_id'") ∧
  (∀ l, l ∈ ddt_languages Sample.db → language_id l ≠ Some 9) ∧
  update_user_language Sample.db Sample.request None (Some 9) =
    Raise (DoesNotExist MLanguage).
Proof.
  assert (Hnone : ∀ l, l ∈ ddt_languages Sample.db → language_id l ≠ Some 9).
  { apply Forall_forall. compute_done. }
  destruct (update_user_language_errors Sample.db Sample.request 9)
    as [Htype Hunknown].
  exact (conj Htype (conj Hnone (Hunknown Hnone))).
Defined.

Lemma update_user_language_twice_witness :
  table_ok language_id Language_unique (ddt_languages Sample.db) ∧
  Sample.english ∈ ddt_languages Sample.db ∧
  django_language_name Sample.english ≠ "" ∧
  update_user_language Sample.db Sample.request (Some Sample.french) None
    = Ok ("fr", Sample.french_request) ∧
  update_user_language Sample.db Sample.french_request (Some Sample.english)
    None = Ok ("en", Sample3.french_then_english_request) ∧
  update_user_language Sample.db Sample.request (Some Sample.english) None
    = Ok ("en", Sample3.french_then_english_request) ∧
  get_language_from_session Sample.db
    (Some Sample3.french_then_english_request) = Ok (Lang Sample.english).
Proof.
  destruct sample_tables_ok as (Hok & _ & _).
  assert (Hin : Sample.english ∈ ddt_languages Sample.db) by compute_done.
  assert (Hne : django_language_name Sample.english ≠ "") by compute_done.
  split; [exact Hok|]. split; [exact Hin|]. split; [exact Hne|].
  split; [reflexivity|]. split; [reflexivity|].
  exact (update_user_language_twice Sample.db Sample.request
           Sample.french_request Sample3.french_then_english_request
           Sample.french Sample.english "fr" "en" Hok Hin Hne eq_refl eq_refl).
Defined.

Lemma get_translated_fields_by_name_witness :
  db_ok Sample.db ∧
  get_translated_fields Sample.chair Sample.db
    = Ok [Sample.name_field; Sample.description_field] ∧
  NoDup (field_name <$> [Sample.name_field; Sample.description_field]) ∧
  ∀ f, f ∈ [Sample.name_field; Sample.description_field] ↔
       get_translated_field Sample.chair Sample.db (Some (field_name f))
         = Ok f.
Proof.
  split; [exact sample_db_ok|]. split; [reflexivity|].
  exact (get_translated_fields_by_name Sample.chair Sample.db
           [Sample.name_field; Sample.description_field] sample_db_ok
           eq_refl).
Defined.

Lemma get_translated_items_by_field_witness :
  db_ok Sample.db ∧
  get_translated_items Sample.chair Sample.db
    = Ok [Sample.chair_name; Sample.chair_description] ∧
  NoDup (item_field <$> [Sample.chair_name; Sample.chair_description]) ∧
  ∃ fields,
    get_translated_fields Sample.chair Sample.db = Ok fields ∧
    ∀ i, i ∈ [Sample.chair_name; Sample.chair_description] ↔
         ∃ f, f ∈ fields ∧
              get_translated_item Sample.chair Sample.db (Some f) None = Ok i.
Proof.
  split; [exact sample_db_ok|]. split; [reflexivity|].
  exact (get_translated_items_by_field Sample.chair Sample.db
           [Sample.chair_name; Sample.chair_description] sample_db_ok
           eq_refl).
Defined.

(** The two querysets of the sample product. *)
Example get_translations_sample :
  get_translations Sample.chair Sample.db (Some Sample.english) None
    = Ok [Sample.translation 101 2 10 "Chair";
          Sample.translation 103 2 11 "A seat"] ∧
  get_translations_all_languages Sample.chair Sample.db
    = Ok [Sample.translation 100 1 10 "Chaise";
          Sample.translation 101 2 10 "Chair";
          Sample.translation 102 1 11 "";
          Sample.translation 103 2 11 "A seat"].
Proof. split; reflexivity. Qed.

Lemma get_translations_by_field_witness :
  db_ok Sample.db ∧
  get_translations Sample.chair Sample.db (Some Sample.english) None
    = Ok [Sample.translation 101 2 10 "Chair";
          Sample.translation 103 2 11 "A seat"] ∧
  NoDup (translation_item <$>
           [Sample.translation 101 2 10 "Chair";
            Sample.translation 103 2 11 "A seat"]) ∧
  ∃ fields,
    get_translated_fields Sample.chair Sample.db = Ok fields ∧
    ∀ t, t ∈ [Sample.translation 101 2 10 "Chair";
              Sample.translation 103 2 11 "A seat"] ↔
         ∃ f, f ∈ fields ∧
              get_translation Sample.chair Sample.db (Some f) None
                (Some Sample.english) None = Ok t.
Proof.
  split; [exact sample_db_ok|]. split; [reflexivity|].
  exact (get_translations_by_field Sample.chair Sample.db Sample.english
           [Sample.translation 101 2 10 "Chair";
            Sample.translation 103 2 11 "A seat"] sample_db_ok eq_refl).
Defined.

Lemma mixin_language_by_id_witness :
  NoDup (language_id <$> ddt_languages Sample.db) ∧
  Sample.english ∈ ddt_languages Sample.db ∧
  language_id Sample.english = Some 2 ∧
  get_translation Sample.chair Sample.db None (Some "name") None (Some 2) =
    get_translation Sample.chair Sample.db None (Some "name")
      (Some Sample.english) None ∧
  get_translations Sample.chair Sample.db None (Some 2) =
    get_translations Sample.chair Sample.db (Some Sample.english) None ∧
  dict_with_translations Sample.chair Sample.db None (Some 2) =
    dict_with_translations Sample.chair Sample.db (Some Sample.english) None.
Proof.
  assert (Hnd : NoDup (language_id <$> ddt_languages Sample.db))
    by compute_done.
  assert (Hin : Sample.english ∈ ddt_languages Sample.db) by compute_done.
  split; [exact Hnd|]. split; [exact Hin|]. split; [reflexivity|].
  exact (mixin_language_by_id Sample.chair Sample.db None (Some "name")
           Sample.english 2 Hnd Hin eq_refl).
Defined.

Lemma Language_save_idempotent_witness :
  table_ok language_id Language_unique (ddt_languages Sample.db) ∧
  Language_save Sample.spanish_typed Sample.db
    = Ok (Sample.spanish_saved, Sample2.db_with_spanish) ∧
  Language_save Sample.spanish_saved Sample2.db_with_spanish
    = Ok (Sample.spanish_saved, Sample2.db_with_spanish).
Proof.
  destruct sample_tables_ok as (Hok & _ & _).
  split; [exact Hok|]. split; [reflexivity|].
  exact (Language_save_idempotent Sample.spanish_typed Sample.spanish_saved
           Sample.db Sample2.db_with_spanish Hok eq_refl).
Defined.

Lemma reachable_iso_upper_witness :
  reachable Sample2.one_language ∧
  ∀ l, l ∈ ddt_languages Sample2.one_language → iso_upper l.
Proof.
  split; [exact one_language_reachable|].
  exact (reachable_iso_upper Sample2.one_language one_language_reachable).
Defined.

Lemma Language_save_code_taken_witness :
  Sample.spanish_saved ∈ ddt_languages Sample2.db_with_spanish ∧
  (language_id Sample2.castilian_typed = None ∨
   language_id Sample.spanish_saved ≠ language_id Sample2.castilian_typed) ∧
  (iso2 Sample.spanish_saved = upper (iso2 Sample2.castilian_typed) ∨
   iso3 Sample.spanish_saved = upper (iso3 Sample2.castilian_typed)) ∧
  Language_save Sample2.castilian_typed Sample2.db_with_spanish
    = Raise (IntegrityError MLanguage).
Proof.
  assert (Hin : Sample.spanish_saved ∈ ddt_languages Sample2.db_with_spanish)
    by compute_done.
  split; [exact Hin|]. split; [left; reflexivity|].
  split; [left; reflexivity|].
  exact (Language_save_code_taken Sample2.castilian_typed Sample.spanish_saved
           Sample2.db_with_spanish Hin (or_introl eq_refl)
           (or_introl eq_refl)).
Defined.

Lemma Field_count_missing_is_sum_over_items_witness :
  NoDup (item_id <$> ddt_items Sample.db) ∧
  Field_count_missing_translations Sample.name_field Sample.db =
  sum_list_with (λ i, Item_count_missing_translations i Sample.db)
    (filter (λ i, column_is (item_field i) (field_id Sample.name_field))
       (ddt_items Sample.db)).
Proof.
  assert (Hnd : NoDup (item_id <$> ddt_items Sample.db)) by compute_done.
  split; [exact Hnd|].
  exact (Field_count_missing_is_sum_over_items Sample.db Sample.name_field
           Hnd).
Defined.

Lemma reachable_unique_constraints_witness :
  reachable Sample.db ∧
  (∀ content_type name,
     (length (filter (λ f, field_content_type f = content_type ∧
                           field_name f = name) (ddt_fields Sample.db))
      ≤ 1)%nat) ∧
  (∀ field object_id,
     (length (filter (λ i, item_field i = field ∧
                           item_object_id i = object_id)
                (ddt_items Sample.db))
      ≤ 1)%nat) ∧
  (∀ code,
     (length (filter (λ l, language_name l = code) (ddt_languages Sample.db))
      ≤ 1)%nat ∧
     (length (filter (λ l, iso2 l = code) (ddt_languages Sample.db))
      ≤ 1)%nat ∧
     (length (filter (λ l, iso3 l = code) (ddt_languages Sample.db))
      ≤ 1)%nat ∧
     (length (filter (λ l, django_language_name l = code)
                (ddt_languages Sample.db))
      ≤ 1)%nat).
Proof.
  split; [exact sample_db_reachable|].
  exact (reachable_unique_constraints Sample.db sample_db_reachable).
Defined.

(** The tables of the sample database hold several rows each, and a second
    field of the same name, a second item of the same field and object and
    a second language with a stored code are refused. *)
Example unique_constraints_sample :
  length (ddt_fields Sample.db) = 2%nat ∧
  length (ddt_items Sample.db) = 3%nat ∧
  length (ddt_languages Sample.db) = 2%nat ∧
  Field_save {| field_id := None; field_content_type := 7;
                field_name := "name" |} Sample.db
    = Raise (IntegrityError MField) ∧
  Item_save {| item_id := None; item_field := 1; item_object_id := 2;
               item_content_type := 7 |} Sample.db
    = Raise (IntegrityError MItem) ∧
  Language_save {| language_id := None; language_name := "Anglais";
                   iso2 := "en"; iso3 := "ang";
                   django_language_name := "en-gb" |} Sample.db
    = Raise (IntegrityError MLanguage).
Proof. repeat split. Qed.

Lemma Field_count_items_objects_witness :
  table_ok item_id Item_unique_together (ddt_items Sample.db) ∧
  NoDup (item_object_id <$>
           filter (λ i, column_is (item_field i) (field_id Sample.name_field))
             (ddt_items Sample.db)) ∧
  Field_count_items Sample.name_field Sample.db =
    length (item_object_id <$>
              filter (λ i, column_is (item_field i)
                             (field_id Sample.name_field))
                (ddt_items Sample.db)).
Proof.
  destruct sample_tables_ok as (_ & Hok & _).
  split; [exact Hok|].
  exact (Field_count_items_objects Sample.db Sample.name_field Hok).
Defined.

Lemma Translation_save_text_witness :
  table_ok translation_id Translation_unique_together
    (ddt_translations Sample.db) ∧
  Sample3.empty_description ∈ ddt_translations Sample.db ∧
  translation_id Sample3.empty_description = Some 102 ∧
  ∃ db',
    Translation_save (Translation_with_text "Assise" Sample3.empty_description)
      Sample.db
    = Ok (Translation_with_text "Assise" Sample3.empty_description, db') ∧
    (Item_count_missing_translations Sample.chair_description db' + 1
     = Item_count_missing_translations Sample.chair_description Sample.db + 0
    )%nat.
Proof.
  destruct sample_tables_ok as (_ & _ & Hok).
  assert (Hin : Sample3.empty_description ∈ ddt_translations Sample.db)
    by compute_done.
  split; [exact Hok|]. split; [exact Hin|]. split; [reflexivity|].
  destruct (Translation_save_text Sample.db Sample3.empty_description 102
              "Assise" Hok Hin eq_refl)
    as (db' & Hsave & _ & _ & Hitems & _).
  exists db'. split; [exact Hsave|].
  exact (Hitems Sample.chair_description).
Defined.

(** The translation no longer counts as missing once it has a text. *)
Example Translation_save_text_sample :
  Item_count_missing_translations Sample.chair_description Sample.db = 1%nat ∧
  ∃ db',
    Translation_save (Translation_with_text "Assise" Sample3.empty_description)
      Sample.db
    = Ok (Translation_with_text "Assise" Sample3.empty_description, db') ∧
    Item_count_missing_translations Sample.chair_description db' = 0%nat ∧
    Language_count_missing_translations Sample.french db' = 1%nat.
Proof. split; [reflexivity|]. eexists. repeat split. Qed.


(** The two outcomes on the sample database: the chair is serialized, the
    row with an item that has no translation is not. *)
Example instance_as_translated_dict_outcomes :
  instance_as_translated_dict Sample.db Sample3.flat_fields true
    (Some (Lang Sample.english)) None
    = Ok [("id", PInt 1); ("name", PStr "Chair"); ("picture", PStr "")] ∧
  instance_as_translated_dict Sample.db Sample3.stray_fields false
    (Some (Lang Sample.english)) None = Raise (DoesNotExist MTranslation).
Proof. split; reflexivity. Qed.

Lemma dict_with_translations_fails_only_not_found_witness :
  db_ok Sample.db ∧
  (is_Ok (dict_with_translations Sample.chair Sample.db None (Some 9)) ∨
   not_found (dict_with_translations Sample.chair Sample.db None (Some 9))).
Proof.
  split; [exact sample_db_ok|].
  exact (dict_with_translations_fails_only_not_found Sample.chair Sample.db
           None (Some 9) sample_db_ok).
Defined.

Lemma unsaved_instance_lookups_witness :
  self_id Sample3.unsaved_chair = None ∧
  get_translated_fields Sample3.unsaved_chair Sample.db
    = Ok [Sample.name_field; Sample.description_field] ∧
  get_translated_items Sample3.unsaved_chair Sample.db = Ok [] ∧
  get_translations Sample3.unsaved_chair Sample.db (Some Sample.english) None
    = Ok [] ∧
  get_translations_all_languages Sample3.unsaved_chair Sample.db = Ok [] ∧
  get_translated_item Sample3.unsaved_chair Sample.db (Some Sample.name_field)
    None = Raise (DoesNotExist MItem).
Proof.
  split; [reflexivity|]. split; [reflexivity|].
  exact (unsaved_instance_lookups Sample3.unsaved_chair Sample.db
           [Sample.name_field; Sample.description_field] Sample.name_field
           Sample.english eq_refl eq_refl).
Defined.

Lemma depth_only_matters_for_related_witness :
  Forall (λ nv, not_Model nv.2) Sample3.flat_fields ∧
  instance_as_translated_dict Sample.db Sample3.flat_fields true
    (Some (Lang Sample.english)) None =
  instance_as_translated_dict Sample.db Sample3.flat_fields false
    (Some (Lang Sample.english)) None.
Proof.
  assert (Hflat : Forall (λ nv, not_Model nv.2) Sample3.flat_fields)
    by (repeat constructor).
  split; [exact Hflat|].
  exact (depth_only_matters_for_related Sample.db Sample3.flat_fields
           (Lang Sample.english) None Hflat).
Defined.

(** The short and the long text. *)
Example truncated_text_sample :
  Translation_truncated_text (Sample.translation 100 1 10 "Chaise")
    = "Chaise" ∧
  Translation_truncated_text
    (Sample.translation 106 1 12 "Une table basse en bois de noyer")
    = "Une table basse en b".
Proof. split; reflexivity. Qed.
